(** * gobank: a shallow embedding of the JSON API server and its Postgres store

    The development follows the latest variant of the sources: the store of
    [storage.go] (GetAccounts, GetAccountByID, GetAccountByNumber,
    CreateAccount, DeleteAccount, Transfer), the domain model of [types.go]
    (the variant with a password) and the API server with the JWT middleware.
    The earlier variant of the API server routes /accounts/{id} to the same
    handler with no middleware before it: [makeHandleFunc handleAccountById].

    What lies outside the repository is modelled as follows.
    - The database is a table of accounts with a [serial] counter; the six SQL
      statements of the store get the meaning Postgres gives them on the
      schema of [CreateAccountTable].  A query fails when the connection is
      broken, or when a parameter does not fit the [int] column it is bound
      to.  Length limits of the [varchar] columns are not modelled.
    - bcrypt's digest and the HMAC of the token signature are parameters.
    - The clock, the UUID generator, the bcrypt salt and the JWT_SECRET
      variable are inputs of each request. *)

From Stdlib Require Import ZArith String Ascii List Lia Bool.
From Stdlib Require Import Decimal DecimalString DecimalPos DecimalZ.
From Stdlib Require Import Floats.SpecFloat.
Import ListNotations.

Set Warnings "-register-all".
Local Open Scope string_scope.
Local Open Scope Z_scope.

(** ** Go values *)

(** A Go [error]: [None] is [nil], [Some msg] an error whose [Error()] is
    [msg]. *)
Definition error := option string.

(** [float64]: sign, mantissa and exponent of a binary64 number. *)
Definition float64 := spec_float.

(** The verb [%d] of [fmt]. *)
Definition itoa (z : Z) : string := NilZero.string_of_int (Z.to_int z).

Definition int64_ok (z : Z) : bool := (- 2 ^ 63 <=? z) && (z <? 2 ^ 63).

Definition parse_digits (sign : Z) (digits : string) : option Z :=
  match digits with
  | EmptyString => None
  | _ =>
      match NilEmpty.uint_of_string digits with
      | Some u =>
          let z := sign * Z.of_uint u in
          if int64_ok z then Some z else None
      | None => None
      end
  end.

(** [strconv.Atoi]: an optional sign, then decimal digits, within [int]. *)
Definition Atoi (s : string) : option Z :=
  match s with
  | String "-"%char rest => parse_digits (-1) rest
  | String "+"%char rest => parse_digits 1 rest
  | _ => parse_digits 1 s
  end.

Fixpoint take (n : nat) (s : string) : string :=
  match n, s with
  | S n', String c rest => String c (take n' rest)
  | _, _ => EmptyString
  end.

Fixpoint drop (n : nat) (s : string) : string :=
  match n, s with
  | S n', String _ rest => drop n' rest
  | _, _ => s
  end.

(** ** Computations that change a state and may panic *)

Inductive result (S A : Type) : Type :=
| Returns (a : A) (s : S)
| Panics (msg : string) (s : S).

Arguments Returns {S A} a s.
Arguments Panics {S A} msg s.

Definition M (S A : Type) : Type := S -> result S A.

Definition ret {S A} (a : A) : M S A := fun s => Returns a s.

Definition bind {S A B} (c : M S A) (k : A -> M S B) : M S B :=
  fun s =>
    match c s with
    | Returns a s' => k a s'
    | Panics msg s' => Panics msg s'
    end.

Definition panic {S A} (msg : string) : M S A := fun s => Panics msg s.

Declare Scope go_scope.
Delimit Scope go_scope with go.
Notation "x <- c ;; k" := (bind c (fun x => k))
  (at level 61, c at next level, right associativity) : go_scope.
Notation "' pat <- c ;; k" := (bind c (fun x => match x with pat => k end))
  (at level 61, pat pattern, c at next level, right associativity) : go_scope.
Local Open Scope go_scope.

(** ** types.go *)

Record Account : Type := {
  ID : Z;
  FirstName : string;
  LastName : string;
  Number : string;
  EncryptedPassword : string;
  Balance : Z;
  CreatedAt : Z
}.

Record CreateAccountRequest : Type := {
  car_FirstName : string;
  car_LastName : string;
  car_Password : string
}.

Record TransferRequest : Type := {
  ToAccount : string;
  Amount : float64
}.

Record LoginRequest : Type := {
  lr_Number : string;
  lr_Password : string
}.

(** ** The database behind [database/sql] *)

Record sqlDB : Type := {
  accounts : list Account;          (* the rows of table accounts *)
  accounts_id_seq : Z;              (* the sequence behind [id serial] *)
  conn_err : option string          (* [Some e]: every query fails with e *)
}.

(** The statements the store sends, indexed by the type of the rows they
    return. *)
Inductive stmt : Type -> Type :=
| select_all : stmt Account
| select_by_id (id : Z) : stmt Account
| select_by_number (number : string) : stmt Account
| insert_account (first_name last_name number encrypted_password : string)
    (balance created_at : Z) : stmt unit
| delete_returning_id (id : Z) : stmt Z
| update_balance_returning_id (amount : float64) (number : string) : stmt Z.

Definition int4_ok (z : Z) : bool := (- 2 ^ 31 <=? z) && (z <? 2 ^ 31).

(** The integer a float64 stands for, when it is one. *)
Definition float64_integer (f : float64) : option Z :=
  match f with
  | S754_zero _ => Some 0
  | S754_finite s m e =>
      let signed (v : Z) := if s then - v else v in
      if 0 <=? e then Some (signed (Z.pos m * 2 ^ e))
      else if Z.pos m mod 2 ^ (- e) =? 0
           then Some (signed (Z.pos m / 2 ^ (- e)))
           else None
  | _ => None
  end.

(** A float64 parameter bound to an [int] column: the driver sends its
    shortest decimal text, which the column accepts when it is an integer
    of 32 bits. *)
Definition int4_in (f : float64) : option Z :=
  match float64_integer f with
  | Some k => if int4_ok k then Some k else None
  | None => None
  end.

Definition has_id (id : Z) (a : Account) : bool := ID a =? id.
Definition has_number (number : string) (a : Account) : bool :=
  String.eqb (Number a) number.

Definition add_balance (k : Z) (a : Account) : Account :=
  {| ID := ID a; FirstName := FirstName a; LastName := LastName a;
     Number := Number a; EncryptedPassword := EncryptedPassword a;
     Balance := Balance a + k; CreatedAt := CreatedAt a |}.

(** [set balance = balance + k where number = n] *)
Definition credit (k : Z) (number : string) (a : Account) : Account :=
  if has_number number a then add_balance k a else a.

Definition with_accounts (rows : list Account) (db : sqlDB) : sqlDB :=
  {| accounts := rows; accounts_id_seq := accounts_id_seq db;
     conn_err := conn_err db |}.

(** What a statement does to the table: an error of the server, or the rows
    returned and the new table. *)
Definition run_stmt {R : Type} (q : stmt R) (db : sqlDB)
  : string + (list R * sqlDB) :=
  match q in stmt R0 return string + (list R0 * sqlDB) with
  | select_all => inr (accounts db, db)
  | select_by_id id =>
      if int4_ok id then inr (filter (has_id id) (accounts db), db)
      else inl "pq: value out of range for type integer"
  | select_by_number number =>
      inr (filter (has_number number) (accounts db), db)
  | insert_account first last number encpw balance created =>
      if int4_ok (accounts_id_seq db) && int4_ok balance then
        let row := {| ID := accounts_id_seq db; FirstName := first;
                      LastName := last; Number := number;
                      EncryptedPassword := encpw; Balance := balance;
                      CreatedAt := created |} in
        inr ([], {| accounts := accounts db ++ [row];
                    accounts_id_seq := accounts_id_seq db + 1;
                    conn_err := conn_err db |})
      else inl "pq: integer out of range"
  | delete_returning_id id =>
      if int4_ok id then
        inr (map ID (filter (has_id id) (accounts db)),
             with_accounts
               (filter (fun a => negb (has_id id a)) (accounts db)) db)
      else inl "pq: value out of range for type integer"
  | update_balance_returning_id amount number =>
      match int4_in amount with
      | None => inl "pq: invalid input syntax for type integer"
      | Some k =>
          let hit := filter (has_number number) (accounts db) in
          if forallb (fun a => int4_ok (Balance a + k)) hit then
            inr (map ID hit,
                 with_accounts (map (credit k number) (accounts db)) db)
          else inl "pq: integer out of range"
      end
  end.

(** [*sql.Rows]: [None] is the nil pointer. *)
Definition Rows (R : Type) : Type := option (list R).

(** [db.Query]: rows and a nil error, or nil rows and the error. *)
Definition Query {R : Type} (q : stmt R) : M sqlDB (Rows R * error) :=
  fun db =>
    match conn_err db with
    | Some e => Returns (None, Some e) db
    | None =>
        match run_stmt q db with
        | inl e => Returns (None, Some e) db
        | inr (rows, db') => Returns (Some rows, None) db'
        end
    end.

(** [rows.Next()] reads through its receiver: on nil rows it panics. *)
Definition Next {S R : Type} (rows : Rows R) : M S (list R) :=
  match rows with
  | Some rs => ret rs
  | None => panic "runtime error: invalid memory address or nil pointer dereference"
  end.

(** ** storage.go: PostgresStore *)

(** [rows.Scan] into the seven fields of an account; the rows of a select
    on accounts have these columns. *)
Definition scanIntoAccount (row : Account) : option Account * error :=
  (Some row, None).

(** The loop of GetAccounts appends the scan of every row. *)
Definition GetAccounts : M sqlDB (option (list Account) * error) :=
  ' (rows, err) <- Query select_all ;;
  match err with
  | Some e => ret (None, Some e)
  | None =>
      rs <- Next rows ;;
      ret (Some rs, None)
  end.

Definition GetAccountByID (id : Z) : M sqlDB (option Account * error) :=
  ' (rows, err) <- Query (select_by_id id) ;;
  match err with
  | Some e => ret (None, Some e)
  | None =>
      rs <- Next rows ;;
      match rs with
      | row :: _ => ret (scanIntoAccount row)
      | [] => ret (None, Some ("account " ++ itoa id ++ " not found"))
      end
  end.

Definition GetAccountByNumber (number : string)
  : M sqlDB (option Account * error) :=
  ' (rows, err) <- Query (select_by_number number) ;;
  match err with
  | Some e => ret (None, Some e)
  | None =>
      rs <- Next rows ;;
      match rs with
      | row :: _ => ret (scanIntoAccount row)
      | [] => ret (None, Some ("account " ++ number ++ " not found"))
      end
  end.

Definition CreateAccount (acc : Account) : M sqlDB error :=
  ' (_, err) <- Query (insert_account (FirstName acc) (LastName acc)
                         (Number acc) (EncryptedPassword acc)
                         (Balance acc) (CreatedAt acc)) ;;
  match err with
  | Some e => ret (Some e)
  | None => ret None
  end.

(** No test of [err] before the loop over [rows]. *)
Definition DeleteAccount (id : Z) : M sqlDB (Z * error) :=
  ' (rows, err) <- Query (delete_returning_id id) ;;
  rs <- Next rows ;;
  match rs with
  | id' :: _ => ret (id', None)
  | [] => ret (0, err)
  end.

Definition Transfer (accountNumber : string) (amount : float64)
  : M sqlDB (Z * error) :=
  ' (rows, err) <- Query (update_balance_returning_id amount accountNumber) ;;
  rs <- Next rows ;;
  match rs with
  | id :: _ => ret (id, None)
  | [] => ret (0, err)
  end.

(** [Init]: [create table if not exists accounts]; the sequence of a new
    table starts at 1. *)
Definition Init : sqlDB :=
  {| accounts := []; accounts_id_seq := 1; conn_err := None |}.

(** ** golang.org/x/crypto/bcrypt *)

Definition DefaultCost : Z := 10.

(** The key schedule reads 18 words of 4 bytes from the key, starting over
    at its end: 72 bytes of the password followed by a zero byte. *)
Fixpoint cycle (n : nat) (key rest : string) : string :=
  match n with
  | O => EmptyString
  | S n' =>
      match rest with
      | String c rest' => String c (cycle n' key rest')
      | EmptyString =>
          match key with
          | String c rest' => String c (cycle n' key rest')
          | EmptyString => EmptyString
          end
      end
  end.

Definition keyMaterial (password : string) : string :=
  let ckey := password ++ String Ascii.zero EmptyString in
  cycle 72 ckey ckey.

Definition two_digits (n : Z) : string :=
  if n <? 10 then "0" ++ itoa n else itoa n.

Definition ErrPasswordTooLong : string :=
  "bcrypt: password length exceeds 72 bytes".
Definition ErrMismatchedHashAndPassword : string :=
  "crypto/bcrypt: hashedPassword is not the hash of the given password".
Definition ErrHashTooShort : string :=
  "crypto/bcrypt: hashedSecret too short to be a bcrypted password".

(** ** github.com/golang-jwt/jwt/v4 *)

Inductive ClaimValue : Type :=
| CNum (z : Z)          (* a number of whole seconds, or any integer *)
| CStr (s : string)
| COther.

Definition MapClaims : Type := list (string * ClaimValue).

Fixpoint claim (name : string) (m : MapClaims) : option ClaimValue :=
  match m with
  | [] => None
  | (k, v) :: rest => if String.eqb k name then Some v else claim name rest
  end.

(** The value of the header x-jwt-token, by what the parser makes of it:
    three segments holding a header with [alg], the claims and a signature,
    or anything else. *)
Inductive tokenString : Type :=
| Malformed (raw : string)
| Compact (alg : string) (claims : MapClaims) (signature : string).

Record Token : Type := {
  Method_Alg : string;
  Claims : MapClaims;
  Signature : string;
  Valid : bool
}.

Definition SigningMethodHMAC (alg : string) : bool :=
  String.eqb alg "HS256" || String.eqb alg "HS384" || String.eqb alg "HS512".

(** [VerifyExpiresAt(now, false)]: no claim or a zero passes, a number
    passes while [now] is before it, anything else does not. *)
Definition VerifyExpiresAt (m : MapClaims) (now : Z) : bool :=
  match claim "exp" m with
  | None => true
  | Some (CNum 0) => true
  | Some (CNum exp) => now <? exp
  | Some _ => false
  end.

Definition VerifyIssuedAt (m : MapClaims) (now : Z) : bool :=
  match claim "iat" m with
  | None => true
  | Some (CNum 0) => true
  | Some (CNum iat) => iat <=? now
  | Some _ => false
  end.

Definition VerifyNotBefore (m : MapClaims) (now : Z) : bool :=
  match claim "nbf" m with
  | None => true
  | Some (CNum 0) => true
  | Some (CNum nbf) => nbf <=? now
  | Some _ => false
  end.

Definition claims_Valid (m : MapClaims) (now : Z) : bool :=
  VerifyExpiresAt m now && VerifyIssuedAt m now && VerifyNotBefore m now.

(** ** encoding/json and net/http *)

Inductive JSON : Type :=
| JNull
| JNumber (z : Z)
| JFloat (f : float64)
| JString (s : string)
| JTime (t : Z)
| JToken (t : tokenString)
| JArray (items : list JSON)
| JObject (members : list (string * JSON)).

(** The struct tags of [Account]: EncryptedPassword has the tag "-". *)
Definition json_Account (a : Account) : JSON :=
  JObject [("id", JNumber (ID a));
           ("first_name", JString (FirstName a));
           ("last_name", JString (LastName a));
           ("number", JString (Number a));
           ("balance", JNumber (Balance a));
           ("created_at", JTime (CreatedAt a))].

Definition json_ApiError (msg : string) : JSON :=
  JObject [("error", JString msg)].

Definition json_LoginResponse (number : string) (token : tokenString) : JSON :=
  JObject [("number", JString number); ("token", JToken token)].

Definition StatusOK : Z := 200.
Definition StatusCreated : Z := 201.
Definition StatusNoContent : Z := 204.
Definition StatusBadRequest : Z := 400.
Definition StatusForbidden : Z := 403.
Definition StatusNotFound : Z := 404.
Definition StatusMethodNotAllowed : Z := 405.

(** The response of the server, by what reaches the client: the status and
    the header as they are when the status is written, and the values
    encoded into the body. *)
Record ResponseWriter : Type := {
  wroteHeader : bool;
  status : Z;
  header : list (string * string);
  body : list JSON
}.

Definition newResponse : ResponseWriter :=
  {| wroteHeader := false; status := 0; header := []; body := [] |}.

(** [w.Header().Add]: once the status is written the header is sent, and a
    later change does not reach the client. *)
Definition Header_Add (k v : string) (w : ResponseWriter) : ResponseWriter :=
  if wroteHeader w then w
  else {| wroteHeader := false; status := status w;
          header := header w ++ [(k, v)]; body := body w |}.

(** A second [WriteHeader] is ignored. *)
Definition WriteHeader (code : Z) (w : ResponseWriter) : ResponseWriter :=
  if wroteHeader w then w
  else {| wroteHeader := true; status := code; header := header w;
          body := body w |}.

Definition bodyAllowedForStatus (code : Z) : bool :=
  if (100 <=? code) && (code <=? 199) then false
  else if code =? 204 then false
  else if code =? 304 then false
  else true.

Definition ErrBodyNotAllowed : string :=
  "http: request method or response status code does not allow body".

(** [w.Write] of an encoded value. *)
Definition Write_body (v : JSON) (w : ResponseWriter)
  : ResponseWriter * error :=
  let w := WriteHeader StatusOK w in
  if bodyAllowedForStatus (status w) then
    ({| wroteHeader := wroteHeader w; status := status w;
        header := header w; body := body w ++ [v] |}, None)
  else (w, Some ErrBodyNotAllowed).

Inductive Path : Type :=
| path_login
| path_accounts
| path_accounts_id (id : string)
| path_transfer
| path_other (raw : string).

(** The body of a request, by what [json.Decoder] makes of it for each of
    the request structs. *)
Record RequestBody : Type := {
  as_CreateAccountRequest : string + CreateAccountRequest;
  as_LoginRequest : string + LoginRequest;
  as_TransferRequest : string + TransferRequest
}.

Record Request : Type := {
  Method : string;
  URL : Path;
  x_jwt_token : tokenString;
  Body : RequestBody
}.

(** [mux.Vars(r)["id"]] *)
Definition Vars_id (r : Request) : string :=
  match URL r with
  | path_accounts_id id => id
  | _ => EmptyString
  end.

(** What a request reads from outside the program. *)
Record Env : Type := {
  now : Z;               (* time.Now(), in seconds since the epoch *)
  uuid : string;         (* uuid.NewString() *)
  salt : string;         (* the 22 characters of a new bcrypt salt *)
  JWT_SECRET : string    (* os.Getenv("JWT_SECRET") *)
}.

(** The state a handler works on: its ResponseWriter and the store. *)
Record World : Type := {
  resp : ResponseWriter;
  store : sqlDB
}.

Definition onStore {A : Type} (c : M sqlDB A) : M World A :=
  fun wd =>
    match c (store wd) with
    | Returns a db => Returns a {| resp := resp wd; store := db |}
    | Panics msg db => Panics msg {| resp := resp wd; store := db |}
    end.

Definition WriteJSON (code : Z) (v : JSON) : M World error :=
  fun wd =>
    let w := Header_Add "Content-Type" "application/json" (resp wd) in
    let w := WriteHeader code w in
    let (w, err) := Write_body v w in
    Returns err {| resp := w; store := store wd |}.

Inductive Outcome : Type :=
| Response (w : ResponseWriter)
| Aborted (msg : string).        (* the handler panicked: no response *)

Section Server.

(** The digest bcrypt computes from the key material, the cost and the
    salt (31 characters), and the HMAC of a signing method under a key. *)
Variable eksBlowfish : string -> Z -> string -> string.
Variable HMAC : string -> string -> string * MapClaims -> string.

(** *** bcrypt *)

Definition bcrypt (password : string) (cost : Z) (salt : string) : string :=
  eksBlowfish (keyMaterial password) cost salt.

Definition GenerateFromPassword (salt password : string) (cost : Z)
  : option string * error :=
  if 72 <? Z.of_nat (String.length password) then (None, Some ErrPasswordTooLong)
  else
    let cost := if cost <? 4 then DefaultCost else cost in
    if 31 <? cost then (None, Some "crypto/bcrypt: cost outside allowed range")
    else (Some ("$2a$" ++ two_digits cost ++ "$" ++ salt
                ++ bcrypt password cost salt), None).

(** [newFromHash]: version, cost, the 22 characters of the salt, and the
    digest. *)
Definition newFromHash (h : string) : option (Z * string * string) :=
  if Z.of_nat (String.length h) <? 59 then None
  else
    match h with
    | String "$"%char (String major (String minor _)) =>
        if (nat_of_ascii "2" <? nat_of_ascii major)%nat then None
        else
          let h1 := drop (if Ascii.eqb minor "$" then 3 else 4) h in
          match Atoi (take 2 h1) with
          | Some cost =>
              if (cost <? 4) || (31 <? cost) then None
              else
                let h2 := drop 3 h1 in
                Some (cost, take 22 h2, drop 22 h2)
          | None => None
          end
    | _ => None
    end.

Definition CompareHashAndPassword (hashedPassword password : string) : error :=
  match newFromHash hashedPassword with
  | None => Some ErrHashTooShort
  | Some (cost, salt, hash) =>
      if String.eqb (bcrypt password cost salt) hash then None
      else Some ErrMismatchedHashAndPassword
  end.

(** *** types.go *)

Definition ValidatePassword (a : Account) (pw : string) : bool :=
  match CompareHashAndPassword (EncryptedPassword a) pw with
  | None => true
  | Some _ => false
  end.

Definition NewAccount (env : Env) (firstName lastName password : string)
  : option Account * error :=
  match GenerateFromPassword (salt env) password DefaultCost with
  | (Some encpw, None) =>
      (Some {| ID := 0; FirstName := firstName; LastName := lastName;
               Number := uuid env; EncryptedPassword := encpw;
               Balance := 0; CreatedAt := now env |}, None)
  | (_, err) => (None, err)
  end.

(** *** api.go: tokens *)

Definition createJWT (env : Env) (account : Account) : tokenString * error :=
  let claims := [("accountNumber", CStr (Number account));
                 ("exp", CNum (now env + 60))] in
  (Compact "HS256" claims (HMAC "HS256" (JWT_SECRET env) ("HS256", claims)),
   None).

(** [jwt.Parse] with the key function of [validateJWT]: the method must be
    an HMAC one, the claims valid at the time of the call and the signature
    the HMAC of header and claims under JWT_SECRET. *)
Definition validateJWT (env : Env) (t : tokenString) : option Token * error :=
  match t with
  | Malformed _ => (None, Some "token is malformed")
  | Compact alg claims sig =>
      let token (valid : bool) :=
        {| Method_Alg := alg; Claims := claims; Signature := sig;
           Valid := valid |} in
      if negb (SigningMethodHMAC alg)
      then (Some (token false), Some ("unexpected signing method: " ++ alg))
      else if negb (claims_Valid claims (now env))
      then (Some (token false), Some "Token is expired")
      else if negb (String.eqb sig (HMAC alg (JWT_SECRET env) (alg, claims)))
      then (Some (token false), Some "signature is invalid")
      else (Some (token true), None)
  end.

(** *** api.go: handlers *)

Definition apiFunc : Type := Request -> Env -> M World error.
Definition HandlerFunc : Type := Request -> Env -> M World unit.

Definition nil_dereference {A : Type} : M World A :=
  panic "runtime error: invalid memory address or nil pointer dereference".

Definition getID (r : Request) : Z * error :=
  let idStr := Vars_id r in
  match Atoi idStr with
  | Some id => (id, None)
  | None => (0, Some ("invalid id given " ++ idStr))
  end.

Definition json_pointer (a : option Account) : JSON :=
  match a with
  | Some a => json_Account a
  | None => JNull
  end.

Definition json_slice (l : option (list Account)) : JSON :=
  match l with
  | Some l => JArray (map json_Account l)
  | None => JNull
  end.

Definition handleGetAccounts : apiFunc := fun r env =>
  ' (accounts, err) <- onStore GetAccounts ;;
  match err with
  | Some e => ret (Some e)
  | None => WriteJSON StatusOK (json_slice accounts)
  end.

Definition handleCreateAccount : apiFunc := fun r env =>
  match as_CreateAccountRequest (Body r) with
  | inl e => ret (Some e)
  | inr req =>
      let '(account, err) :=
        NewAccount env (car_FirstName req) (car_LastName req)
          (car_Password req) in
      match err with
      | Some e => ret (Some e)
      | None =>
          match account with
          | None => nil_dereference
          | Some account =>
              err <- onStore (CreateAccount account) ;;
              match err with
              | Some e => ret (Some e)
              | None => WriteJSON StatusCreated (json_Account account)
              end
          end
      end
  end.

Definition handleAccount : apiFunc := fun r env =>
  if String.eqb (Method r) "GET" then handleGetAccounts r env
  else if String.eqb (Method r) "POST" then handleCreateAccount r env
  else ret (Some ("method not allowed " ++ Method r)).

Definition handleLogin : apiFunc := fun r env =>
  match as_LoginRequest (Body r) with
  | inl e => ret (Some e)
  | inr req =>
      ' (acc, err) <- onStore (GetAccountByNumber (lr_Number req)) ;;
      match err with
      | Some e => ret (Some e)
      | None =>
          match acc with
          | None => nil_dereference
          | Some acc =>
              if negb (ValidatePassword acc (lr_Password req))
              then ret (Some "not authenticated")
              else
                let '(token, err) := createJWT env acc in
                match err with
                | Some e => ret (Some e)
                | None =>
                    WriteJSON StatusOK (json_LoginResponse (Number acc) token)
                end
          end
      end
  end.

Definition handleAccountById : apiFunc := fun r env =>
  let '(id, err) := getID r in
  match err with
  | Some e => ret (Some e)
  | None =>
      if String.eqb (Method r) "GET" then
        ' (account, err) <- onStore (GetAccountByID id) ;;
        match err with
        | Some e => ret (Some e)
        | None => WriteJSON StatusOK (json_pointer account)
        end
      else if String.eqb (Method r) "DELETE" then
        (* id, err = s.store.DeleteAccount(id) *)
        ' (id, err) <- onStore (DeleteAccount id) ;;
        match err with
        | Some e => WriteJSON StatusBadRequest (json_ApiError e)
        | None =>
            if id =? 0 then
              WriteJSON StatusNotFound
                (json_ApiError ("account " ++ itoa id ++ " not found"))
            else
              WriteJSON StatusNoContent (JObject [("deleted", JNumber id)])
        end
      else ret (Some ("method not allowed " ++ Method r))
  end.

Definition handleTrasfer : apiFunc := fun r env =>
  match as_TransferRequest (Body r) with
  | inl e => ret (Some e)
  | inr transferRequest =>
      ' (id, err) <- onStore (Transfer (ToAccount transferRequest)
                                (Amount transferRequest)) ;;
      match err with
      | Some e => WriteJSON StatusBadRequest (json_ApiError e)
      | None =>
          if id =? 0 then
            WriteJSON StatusNotFound
              (json_ApiError ("account not " ++ ToAccount transferRequest
                              ++ " not found"))
          else
            (* a map is encoded with its keys sorted *)
            WriteJSON StatusOK
              (JObject [("to", JString (ToAccount transferRequest));
                        ("transfered", JFloat (Amount transferRequest))])
      end
  end.

Definition makeHandleFunc (f : apiFunc) : HandlerFunc := fun r env =>
  err <- f r env ;;
  match err with
  | Some e =>
      _ <- WriteJSON StatusBadRequest (json_ApiError e) ;;
      ret tt
  | None => ret tt
  end.

Definition permissionDenied : M World unit :=
  _ <- WriteJSON StatusForbidden (json_ApiError "permission denied") ;;
  ret tt.

Definition invalidToken : M World unit :=
  _ <- WriteJSON StatusForbidden (json_ApiError "invalid token") ;;
  ret tt.

Definition withJWTAuth (handlerFunc : HandlerFunc) : HandlerFunc :=
  fun r env =>
    let tokenString := x_jwt_token r in
    let '(token, err) := validateJWT env tokenString in
    match err with
    | Some _ => invalidToken
    | None =>
        match token with
        | None => nil_dereference
        | Some token =>
            if negb (Valid token) then invalidToken
            else
              let '(userID, err) := getID r in
              match err with
              | Some _ => permissionDenied
              | None =>
                  ' (account, err) <- onStore (GetAccountByID userID) ;;
                  match err with
                  | Some _ => permissionDenied
                  | None =>
                      match account with
                      | None => nil_dereference
                      | Some account =>
                          (* account.Number != claims["accountNumber"] *)
                          match claim "accountNumber" (Claims token) with
                          | Some (CStr n) =>
                              if String.eqb (Number account) n
                              then handlerFunc r env
                              else permissionDenied
                          | _ => permissionDenied
                          end
                      end
                  end
              end
        end
    end.

(** The replies of the router itself; their plain text is left out. *)
Definition routerReply (code : Z) : M World unit :=
  fun wd => Returns tt {| resp := WriteHeader code (resp wd);
                          store := store wd |}.

Definition allows (methods : list string) (h : HandlerFunc) : HandlerFunc :=
  fun r env =>
    if existsb (String.eqb (Method r)) methods then h r env
    else routerReply StatusMethodNotAllowed.

(** The routes of [Run]. *)
Definition router : HandlerFunc := fun r env =>
  match URL r with
  | path_login => allows ["POST"] (makeHandleFunc handleLogin) r env
  | path_accounts => allows ["GET"; "POST"] (makeHandleFunc handleAccount) r env
  | path_accounts_id _ =>
      allows ["GET"; "DELETE"]
        (withJWTAuth (makeHandleFunc handleAccountById)) r env
  | path_transfer => allows ["POST"] (makeHandleFunc handleTrasfer) r env
  | path_other _ => routerReply StatusNotFound
  end.

(** The server around a handler: a handler that returns without writing
    sends 200; a handler that panics sends nothing. *)
Definition serve (h : HandlerFunc) (db : sqlDB) (r : Request) (env : Env)
  : Outcome * sqlDB :=
  match h r env {| resp := newResponse; store := db |} with
  | Returns _ wd => (Response (WriteHeader StatusOK (resp wd)), store wd)
  | Panics msg wd => (Aborted msg, store wd)
  end.

End Server.

(** ** Notions the properties are stated with *)

(** The primary key and its sequence: the sequence starts at 1, every id
    is at least 1, below the next value of the sequence, and held by one
    row. *)
Definition wf (db : sqlDB) : Prop :=
  1 <= accounts_id_seq db
  /\ Forall (fun a => 1 <= ID a < accounts_id_seq db) (accounts db)
  /\ NoDup (map ID (accounts db)).

Definition no_account_with_id (id : Z) (db : sqlDB) : Prop :=
  forall a, In a (accounts db) -> ID a <> id.


(** The error [db.Query] returns for a statement, if any. *)
Definition query_error {R : Type} (q : stmt R) (db : sqlDB) : option string :=
  match conn_err db with
  | Some e => Some e
  | None =>
      match run_stmt q db with
      | inl e => Some e
      | inr _ => None
      end
  end.

(** The one statement of a request that changes the table. *)
Inductive sql_step (env : Env) (db db' : sqlDB) : Prop :=
| step_insert (first last encpw : string)
    (H : run_stmt (insert_account first last (uuid env) encpw 0 (now env)) db
         = inr ([], db'))
| step_delete (id : Z) (rows : list Z)
    (H : run_stmt (delete_returning_id id) db = inr (rows, db'))
| step_update (amount : float64) (number : string) (rows : list Z)
    (H : run_stmt (update_balance_returning_id amount number) db
         = inr (rows, db')).

(** A request changes the table by one such statement or not at all. *)
Definition changes (env : Env) (db db' : sqlDB) : Prop :=
  db' = db \/ sql_step env db db'.

Definition final {S A : Type} (r : result S A) : S :=
  match r with
  | Returns _ s => s
  | Panics _ s => s
  end.

Definition with_conn (c : option string) (db : sqlDB) : sqlDB :=
  {| accounts := accounts db; accounts_id_seq := accounts_id_seq db;
     conn_err := c |}.

(** A request as it arrives: the state of the connection to the database
    at that time, the request and what it reads from outside. *)
Record Event : Type := {
  ev_conn : option string;
  ev_request : Request;
  ev_env : Env
}.

Definition with_password (h : string) (a : Account) : Account :=
  {| ID := ID a; FirstName := FirstName a; LastName := LastName a;
     Number := Number a; EncryptedPassword := h;
     Balance := Balance a; CreatedAt := CreatedAt a |}.

(** An account without its credential, and two tables that differ in the
    credentials only. *)
Definition scrub (a : Account) : Account := with_password EmptyString a.

Definition same_public (a1 a2 : Account) : Prop := scrub a1 = scrub a2.

Definition low_eq (db1 db2 : sqlDB) : Prop :=
  Forall2 same_public (accounts db1) (accounts db2)
  /\ accounts_id_seq db1 = accounts_id_seq db2
  /\ conn_err db1 = conn_err db2.

Definition low_eq_world (wd1 wd2 : World) : Prop :=
  resp wd1 = resp wd2 /\ low_eq (store wd1) (store wd2).

(** Two runs of a computation that end alike, in related states and with
    related values. *)
Definition rel_result {S A : Type} (RS : S -> S -> Prop) (RA : A -> A -> Prop)
  (r1 r2 : result S A) : Prop :=
  match r1, r2 with
  | Returns a1 s1, Returns a2 s2 => RA a1 a2 /\ RS s1 s2
  | Panics m1 s1, Panics m2 s2 => m1 = m2 /\ RS s1 s2
  | _, _ => False
  end.

Definition same_account (x1 x2 : option Account * error) : Prop :=
  snd x1 = snd x2
  /\ match fst x1, fst x2 with
     | Some a1, Some a2 => same_public a1 a2
     | None, None => True
     | _, _ => False
     end.

Definition same_accounts (x1 x2 : option (list Account) * error) : Prop :=
  snd x1 = snd x2
  /\ match fst x1, fst x2 with
     | Some l1, Some l2 => Forall2 same_public l1 l2
     | None, None => True
     | _, _ => False
     end.

(** The fields of an account other than its balance. *)
Definition same_but_balance (a a' : Account) : Prop :=
  ID a' = ID a /\ FirstName a' = FirstName a /\ LastName a' = LastName a
  /\ Number a' = Number a /\ EncryptedPassword a' = EncryptedPassword a
  /\ CreatedAt a' = CreatedAt a.

(** The reply [WriteJSON] sends on a new response, for a status that
    carries a body. *)
Definition reply (code : Z) (v : JSON) : ResponseWriter :=
  {| wroteHeader := true; status := code;
     header := [("Content-Type", "application/json")]; body := [v] |}.

Definition forbidden (msg : string) : ResponseWriter :=
  reply StatusForbidden (json_ApiError msg).

(** The causes for which the middleware turns a request away. *)
Inductive Cause : Type :=
| MalformedToken
| ExpiredToken
| SignatureMismatch
| AccountNotFound
| NumberMismatch.

Definition cause_message (c : Cause) : string :=
  match c with
  | MalformedToken | ExpiredToken | SignatureMismatch => "invalid token"
  | AccountNotFound | NumberMismatch => "permission denied"
  end.

Section Runs.

Variable eksBlowfish : string -> Z -> string -> string.
Variable HMAC : string -> string -> string * MapClaims -> string.

Fixpoint run (events : list Event) (db : sqlDB) : sqlDB :=
  match events with
  | [] => db
  | ev :: rest =>
      run rest
        (snd (serve (router eksBlowfish HMAC) (with_conn (ev_conn ev) db)
                (ev_request ev) (ev_env ev)))
  end.

(** What the check of the password at login finds, if the request is a
    login that gets that far. *)
Definition password_check (db : sqlDB) (r : Request) : option bool :=
  match URL r, as_LoginRequest (Body r) with
  | path_login, inr req =>
      match filter (has_number (lr_Number req)) (accounts db) with
      | a :: _ => Some (ValidatePassword eksBlowfish a (lr_Password req))
      | [] => None
      end
  | _, _ => None
  end.

(** When a request to the protected route has a given cause of refusal. *)
Definition has_cause (c : Cause) (db : sqlDB) (r : Request) (env : Env)
  : Prop :=
  match c with
  | MalformedToken => exists raw, x_jwt_token r = Malformed raw
  | ExpiredToken =>
      exists alg claims sig,
        x_jwt_token r = Compact alg claims sig
        /\ SigningMethodHMAC alg = true
        /\ VerifyExpiresAt claims (now env) = false
  | SignatureMismatch =>
      exists alg claims sig,
        x_jwt_token r = Compact alg claims sig
        /\ SigningMethodHMAC alg = true
        /\ sig <> HMAC alg (JWT_SECRET env) (alg, claims)
  | AccountNotFound =>
      exists token id,
        validateJWT HMAC env (x_jwt_token r) = (Some token, None)
        /\ Atoi (Vars_id r) = Some id
        /\ conn_err db = None
        /\ no_account_with_id id db
  | NumberMismatch =>
      exists token id a,
        validateJWT HMAC env (x_jwt_token r) = (Some token, None)
        /\ Atoi (Vars_id r) = Some id
        /\ GetAccountByID id db = Returns (Some a, None) db
        /\ claim "accountNumber" (Claims token) <> Some (CStr (Number a))
  end.

(** The account the middleware lets a request through for: the token is
    valid, the id of the path is that of an account, and the number of the
    account is the claim accountNumber. *)
Definition permitted (db : sqlDB) (r : Request) (env : Env) : option Account :=
  match validateJWT HMAC env (x_jwt_token r) with
  | (Some token, None) =>
      match Atoi (Vars_id r) with
      | Some id =>
          match GetAccountByID id db with
          | Returns (Some a, None) _ =>
              match claim "accountNumber" (Claims token) with
              | Some (CStr n) =>
                  if String.eqb (Number a) n then Some a else None
              | _ => None
              end
          | _ => None
          end
      | None => None
      end
  | _ => None
  end.

End Runs.



(** An id that is not in the table and that the sequence has passed. *)
Definition gone (id : Z) (db : sqlDB) : Prop :=
  id < accounts_id_seq db /\ no_account_with_id id db.

(** ** Example parameters and inputs *)

(** A digest that keeps all it is given, and a signature that names the
    method, the key and the claims. *)
Definition example_eks (key : string) (cost : Z) (salt : string) : string :=
  key ++ itoa cost ++ salt.

Definition show_claim (c : string * ClaimValue) : string :=
  match c with
  | (k, CNum z) => k ++ "=" ++ itoa z ++ ";"
  | (k, CStr s) => k ++ "=" ++ s ++ ";"
  | (k, COther) => k ++ "=?;"
  end.

Definition example_hmac (alg key : string) (input : string * MapClaims)
  : string :=
  alg ++ "/" ++ key ++ "/" ++ fst input ++ "/"
  ++ String.concat "" (map show_claim (snd input)).

Definition example_env : Env :=
  {| now := 1700000000; uuid := "7d444840-9dc0-11d1-b245-5ffdce74fad2";
     salt := "N9qo8uLOickgx2ZMRZoMye"; JWT_SECRET := "hunter2" |}.

Definition no_body : RequestBody :=
  {| as_CreateAccountRequest := inl "EOF"; as_LoginRequest := inl "EOF";
     as_TransferRequest := inl "EOF" |}.

Definition anna : Account :=
  {| ID := 1; FirstName := "Anna"; LastName := "Adler";
     Number := "7d444840-9dc0-11d1-b245-5ffdce74fad2";
     EncryptedPassword :=
       "$2a$10$N9qo8uLOickgx2ZMRZoMye"
       ++ example_eks (keyMaterial "secret") 10 "N9qo8uLOickgx2ZMRZoMye";
     Balance := 100; CreatedAt := 1700000000 |}.

(** anna as NewAccount builds her, before the store gives her an id. *)
Definition new_anna : Account :=
  {| ID := 0; FirstName := "Anna"; LastName := "Adler";
     Number := "7d444840-9dc0-11d1-b245-5ffdce74fad2";
     EncryptedPassword :=
       "$2a$10$N9qo8uLOickgx2ZMRZoMye"
       ++ example_eks (keyMaterial "secret") 10 "N9qo8uLOickgx2ZMRZoMye";
     Balance := 0; CreatedAt := 1700000000 |}.

Definition example_db : sqlDB :=
  {| accounts := [anna]; accounts_id_seq := 2; conn_err := None |}.

Definition down_db : sqlDB :=
  {| accounts := [anna]; accounts_id_seq := 2;
     conn_err := Some "dial tcp 127.0.0.1:5432: connect: connection refused" |}.

Definition request (method : string) (url : Path) (token : tokenString)
  (b : RequestBody) : Request :=
  {| Method := method; URL := url; x_jwt_token := token; Body := b |}.

(** The token a login of anna gets at the time of [example_env]. *)
Definition anna_token : tokenString :=
  fst (createJWT example_hmac example_env anna).

Definition no_token : tokenString := Malformed EmptyString.

(** 50, as a float64: 25 * 2^1. *)
Definition fifty : float64 := S754_finite false 25 1.


Definition create_body (first last password : string) : RequestBody :=
  {| as_CreateAccountRequest :=
       inr {| car_FirstName := first; car_LastName := last;
              car_Password := password |};
     as_LoginRequest := inl "EOF"; as_TransferRequest := inl "EOF" |}.

(** anna with another hash in the column encrypted_password. *)
Definition other_db : sqlDB :=
  {| accounts := [with_password "$2a$10$................................"
                    anna];
     accounts_id_seq := 2; conn_err := None |}.

(** A password of 72 bytes, and the same with one more. *)
Definition password72 : string :=
  "aaaaaaaaaaaaaaaaaaaaaaaaaaaaaaaaaaaaaaaaaaaaaaaaaaaaaaaaaaaaaaaaaaaaaaaa".
Definition password73 : string := password72 ++ "b".

Definition bob_env : Env :=
  {| now := 1700000100; uuid := "c2a8f6a1-5b7e-4c41-9d0a-2f1d3a4b5c6d";
     salt := "Xk3vQ0pYw7uTz1LmB9cD2e"; JWT_SECRET := "hunter2" |}.

Definition create_bob : Event :=
  {| ev_conn := None;
     ev_request := request "POST" path_accounts no_token
                     (create_body "Bob" "Baker" "pass");
     ev_env := bob_env |}.

(** ** Further notions and inputs *)

(** The row CreateAccount inserts for an account: the id is the value of
    the sequence, whatever the struct holds. *)
Definition stored (seq : Z) (acc : Account) : Account :=
  {| ID := seq; FirstName := FirstName acc; LastName := LastName acc;
     Number := Number acc; EncryptedPassword := EncryptedPassword acc;
     Balance := Balance acc; CreatedAt := CreatedAt acc |}.

(** The table after the insert of an account. *)
Definition inserted (acc : Account) (db : sqlDB) : sqlDB :=
  {| accounts := accounts db ++ [stored (accounts_id_seq db) acc];
     accounts_id_seq := accounts_id_seq db + 1;
     conn_err := conn_err db |}.

(** The table after the delete of an id. *)
Definition deleted (id : Z) (db : sqlDB) : sqlDB :=
  with_accounts (filter (fun a => negb (has_id id a)) (accounts db)) db.

(** The table after a credit of k to a number. *)
Definition credited (k : Z) (number : string) (db : sqlDB) : sqlDB :=
  with_accounts (map (credit k number) (accounts db)) db.






(** A little later than [example_env], under the same secret. *)
Definition later_env : Env :=
  {| now := 1700000030; uuid := "0b0e7a52-6c1d-4f6e-8a3b-9d2c1e4f5a6b";
     salt := "Qh7sW2eR9tY4uI1oP6aS3d"; JWT_SECRET := "hunter2" |}.

Definition bob : Account :=
  {| ID := 2; FirstName := "Bob"; LastName := "Baker";
     Number := "c2a8f6a1-5b7e-4c41-9d0a-2f1d3a4b5c6d";
     EncryptedPassword :=
       "$2a$10$Xk3vQ0pYw7uTz1LmB9cD2e"
       ++ example_eks (keyMaterial "pass") 10 "Xk3vQ0pYw7uTz1LmB9cD2e";
     Balance := 0; CreatedAt := 1700000100 |}.

Definition two_db : sqlDB :=
  {| accounts := [anna; bob]; accounts_id_seq := 3; conn_err := None |}.

(** * Properties *)

(** ** The database and the store *)

Ltac go := unfold bind, ret, panic, onStore, Next; simpl.


Lemma Query_err {R : Type} (q : stmt R) (db : sqlDB) (e : string) :
  query_error q db = Some e ->
  Query q db = Returns (None, Some e) db.
Proof.
  unfold query_error, Query. intros H.
  destruct (conn_err db) as [c|].
  - congruence.
  - destruct (run_stmt q db) as [e'|[rows db']]; congruence.
Qed.

Lemma query_error_none {R : Type} (q : stmt R) (db : sqlDB) :
  query_error q db = None ->
  conn_err db = None /\ exists rows db', run_stmt q db = inr (rows, db').
Proof.
  unfold query_error. intros H.
  destruct (conn_err db) as [c|]; [discriminate|].
  split; [reflexivity|].
  destruct (run_stmt q db) as [e'|[rows db']]; [discriminate|].
  eauto.
Qed.

(** A failed query leaves nil rows, and the loop of DeleteAccount reads
    through them. *)
Lemma DeleteAccount_query_error (id : Z) (db : sqlDB) (e : string) :
  query_error (delete_returning_id id) db = Some e ->
  DeleteAccount id db
  = Panics "runtime error: invalid memory address or nil pointer dereference"
      db.
Proof.
  intros H. unfold DeleteAccount. go. rewrite (Query_err _ _ _ H).
  reflexivity.
Qed.

Lemma Transfer_query_error (number : string) (amount : float64) (db : sqlDB)
  (e : string) :
  query_error (update_balance_returning_id amount number) db = Some e ->
  Transfer number amount db
  = Panics "runtime error: invalid memory address or nil pointer dereference"
      db.
Proof.
  intros H. unfold Transfer. go. rewrite (Query_err _ _ _ H).
  reflexivity.
Qed.

(** The other operations test the error first and return it. *)
Lemma GetAccountByID_query_error (id : Z) (db : sqlDB) (e : string) :
  query_error (select_by_id id) db = Some e ->
  GetAccountByID id db = Returns (None, Some e) db.
Proof.
  intros H. unfold GetAccountByID. go. rewrite (Query_err _ _ _ H).
  reflexivity.
Qed.

Lemma where_none (rows : list Account) (cond : Account -> bool) :
  (forall row, In row rows -> cond row = false) -> filter cond rows = [].
Proof.
  intros Hnone. induction rows as [|row rows IH]; simpl.
  - reflexivity.
  - rewrite (Hnone row (or_introl eq_refl)). apply IH.
    intros other Hother. apply Hnone. right. exact Hother.
Qed.

Lemma where_all (rows : list Account) (cond : Account -> bool) :
  (forall row, In row rows -> cond row = true) -> filter cond rows = rows.
Proof.
  intros Hall. induction rows as [|row rows IH]; simpl.
  - reflexivity.
  - rewrite (Hall row (or_introl eq_refl)). f_equal. apply IH.
    intros other Hother. apply Hall. right. exact Hother.
Qed.

Lemma no_id_filter (id : Z) (db : sqlDB) :
  no_account_with_id id db -> filter (has_id id) (accounts db) = [].
Proof.
  intros H. apply where_none. intros a Ha. unfold has_id.
  apply Z.eqb_neq. apply H. exact Ha.
Qed.

Lemma no_id_filter_neg (id : Z) (db : sqlDB) :
  no_account_with_id id db ->
  filter (fun a => negb (has_id id a)) (accounts db) = accounts db.
Proof.
  intros H. apply where_all. intros a Ha. unfold has_id.
  apply negb_true_iff. apply Z.eqb_neq. apply H. exact Ha.
Qed.

Lemma with_accounts_same (db : sqlDB) : with_accounts (accounts db) db = db.
Proof. destruct db. reflexivity. Qed.

(** DeleteAccount on an id no row has: identifier 0 and no error. *)
Lemma DeleteAccount_missing (id : Z) (db : sqlDB) :
  conn_err db = None -> int4_ok id = true -> no_account_with_id id db ->
  DeleteAccount id db = Returns (0, None) db.
Proof.
  intros Hc Hi Hn. unfold DeleteAccount, Query. go. rewrite Hc. simpl.
  rewrite Hi. rewrite (no_id_filter _ _ Hn), (no_id_filter_neg _ _ Hn).
  simpl. rewrite with_accounts_same. reflexivity.
Qed.

(** DeleteAccount returns identifier 0 with no error only through the end
    of its loop, or for a row whose id is 0. *)
Lemma DeleteAccount_zero (id : Z) (db db' : sqlDB) :
  DeleteAccount id db = Returns (0, None) db' ->
  conn_err db = None /\ int4_ok id = true
  /\ (no_account_with_id id db \/ id = 0).
Proof.
  unfold DeleteAccount, Query. go.
  destruct (conn_err db) as [c|]; simpl; [discriminate|].
  destruct (int4_ok id) eqn:Hi; simpl; [|discriminate].
  destruct (filter (has_id id) (accounts db)) as [|a l] eqn:Hf; simpl.
  - intros _. split; [reflexivity|]. split; [reflexivity|]. left.
    intros a Ha Hid.
    assert (In a (filter (has_id id) (accounts db))) as Hin.
    { apply filter_In. split; [exact Ha|]. unfold has_id.
      apply Z.eqb_eq. exact Hid. }
    rewrite Hf in Hin. exact Hin.
  - intros H. injection H as H0 _.
    assert (In a (filter (has_id id) (accounts db))) as Hin.
    { rewrite Hf. left. reflexivity. }
    apply filter_In in Hin. destruct Hin as [_ Hid]. unfold has_id in Hid.
    apply Z.eqb_eq in Hid. split; [reflexivity|]. split; [reflexivity|].
    right. congruence.
Qed.

(** C6, at a database whose connection is refused: DeleteAccount and
    Transfer do not return the error of the query but panic on the nil rows,
    where GetAccountByID, on the same database, returns the error. *)
Theorem DeleteAccount_Transfer_panic_on_failed_query :
  DeleteAccount 1 down_db
  = Panics "runtime error: invalid memory address or nil pointer dereference"
      down_db
  /\ Transfer (Number anna) (S754_finite false 5 1) down_db
     = Panics "runtime error: invalid memory address or nil pointer dereference"
         down_db
  /\ GetAccountByID 1 down_db
     = Returns
         (None, Some "dial tcp 127.0.0.1:5432: connect: connection refused")
         down_db.
Proof.
  split; [|split].
  - apply DeleteAccount_query_error
      with (e := "dial tcp 127.0.0.1:5432: connect: connection refused").
    reflexivity.
  - apply Transfer_query_error
      with (e := "dial tcp 127.0.0.1:5432: connect: connection refused").
    reflexivity.
  - apply GetAccountByID_query_error. reflexivity.
Qed.

Lemma where_some (cond : Account -> bool) (rows : list Account)
  (row : Account) :
  In row rows -> cond row = true ->
  exists first rest,
    filter cond rows = first :: rest /\ In first rows /\ cond first = true.
Proof.
  intros Hin Hcond.
  assert (In row (filter cond rows)) as H by (apply filter_In; auto).
  destruct (filter cond rows) as [|first rest] eqn:E; [contradiction|].
  exists first, rest. split; [reflexivity|].
  assert (In first (filter cond rows)) as Hfirst
      by (rewrite E; left; reflexivity).
  apply filter_In in Hfirst. exact Hfirst.
Qed.


Lemma itoa_injective (x y : Z) : itoa x = itoa y -> x = y.
Proof.
  unfold itoa. intros H.
  assert (forall z, Z.to_int z <> Pos Nil /\ Z.to_int z <> Neg Nil) as Hnil.
  { intros z. destruct z as [|p|p]; simpl; split; try discriminate;
      intros E; injection E as E;
      exact (Unsigned.to_uint_nonnil _ E). }
  assert (Some (Z.to_int x) = Some (Z.to_int y)) as E.
  { rewrite <- (NilZero.isi (Z.to_int x)) by apply Hnil.
    rewrite <- (NilZero.isi (Z.to_int y)) by apply Hnil.
    rewrite H. reflexivity. }
  injection E as E.
  rewrite <- (DecimalZ.of_to x), <- (DecimalZ.of_to y). rewrite E. reflexivity.
Qed.

(** ** Strings *)

Lemma length_app (a b : string) :
  String.length (a ++ b) = (String.length a + String.length b)%nat.
Proof.
  induction a as [|c a IH]; simpl.
  - reflexivity.
  - rewrite IH. reflexivity.
Qed.

Lemma app_cancel_l (p a b : string) : p ++ a = p ++ b -> a = b.
Proof.
  induction p as [|c p IH]; simpl; intros H.
  - exact H.
  - injection H as H. apply IH. exact H.
Qed.

Lemma app_cancel_r (a b s : string) : a ++ s = b ++ s -> a = b.
Proof.
  intros H.
  assert (String.length a = String.length b) as Hl.
  { apply (f_equal String.length) in H. rewrite !length_app in H. lia. }
  revert b H Hl.
  induction a as [|c a IH]; intros [|d b] H Hl; simpl in *;
    try discriminate.
  - reflexivity.
  - injection Hl as Hl. injection H as Hc H. subst d.
    f_equal. apply IH; assumption.
Qed.

Lemma app_assoc_s (a b c : string) : (a ++ b) ++ c = a ++ (b ++ c).
Proof.
  induction a as [|x a IH]; simpl.
  - reflexivity.
  - rewrite IH. reflexivity.
Qed.

Lemma take_app (a b : string) : take (String.length a) (a ++ b) = a.
Proof.
  induction a as [|c a IH]; simpl.
  - destruct b; reflexivity.
  - rewrite IH. reflexivity.
Qed.

Lemma drop_app (a b : string) : drop (String.length a) (a ++ b) = b.
Proof.
  induction a as [|c a IH]; simpl.
  - destruct b; reflexivity.
  - exact IH.
Qed.

(** ** The handlers *)

(** C10: when DELETE /accounts/{id} takes the branch for identifier 0, the
    404 response says "account 0 not found" whatever id was requested: the
    handler formats the value the store returned into the message, which is
    not the message for the requested id unless that is 0. *)
Theorem delete_not_found_message_names_zero :
  forall (r : Request) (env : Env) (db db' : sqlDB) (idStr : string) (id : Z),
    URL r = path_accounts_id idStr ->
    Method r = "DELETE" ->
    Atoi idStr = Some id ->
    DeleteAccount id db = Returns (0, None) db' ->
    serve (makeHandleFunc handleAccountById) db r env
    = (Response (reply StatusNotFound (json_ApiError "account 0 not found")),
       db')
    /\ (id <> 0 ->
        "account 0 not found" <> "account " ++ itoa id ++ " not found").
Proof.
  intros r env db db' idStr id Hurl Hm Hid Hdel. split.
  - unfold serve, makeHandleFunc, handleAccountById, getID, Vars_id.
    rewrite Hurl, Hid, Hm. go. rewrite Hdel. reflexivity.
  - intros Hne E. apply Hne.
    change "account 0 not found" with ("account " ++ itoa 0 ++ " not found")
      in E.
    apply app_cancel_l, app_cancel_r in E.
    symmetry. apply itoa_injective. exact E.
Qed.

Section Properties.

Variable eksBlowfish : string -> Z -> string -> string.
Variable HMAC : string -> string -> string * MapClaims -> string.


(** ** Tokens *)

(** C8: the token createJWT issues for an account carries the number of the
    account in the claim accountNumber and, in exp, the time of issue plus
    60 seconds; under the same secret validateJWT accepts it at every time
    before exp and refuses it at exp and at every time after.  (The library
    reads exp = 0 as no expiry: the time of issue is taken not to be 60
    seconds before the epoch.) *)
Theorem token_valid_until_expiry :
  forall (env : Env) (acc : Account),
    now env + 60 <> 0 ->
    exists claims sig,
      createJWT HMAC env acc = (Compact "HS256" claims sig, None)
      /\ claim "accountNumber" claims = Some (CStr (Number acc))
      /\ claim "exp" claims = Some (CNum (now env + 60))
      /\ forall env' : Env,
           JWT_SECRET env' = JWT_SECRET env ->
           (now env' < now env + 60 ->
            exists token,
              validateJWT HMAC env' (Compact "HS256" claims sig)
              = (Some token, None)
              /\ Valid token = true /\ Claims token = claims)
           /\ (now env + 60 <= now env' ->
               exists token e,
                 validateJWT HMAC env' (Compact "HS256" claims sig)
                 = (token, Some e)).
Proof.
  intros env acc Hexp. unfold createJWT.
  eexists. eexists. split; [reflexivity|].
  split; [reflexivity|]. split; [reflexivity|].
  intros env' Hsecret.
  assert (forall t, VerifyExpiresAt
                      [("accountNumber", CStr (Number acc));
                       ("exp", CNum (now env + 60))] t
                    = (t <? now env + 60)) as Hv.
  { intros t. unfold VerifyExpiresAt. simpl.
    destruct (now env + 60) as [|p|p]; [contradiction|reflexivity|reflexivity]. }
  split.
  - intros Hlt. eexists. unfold validateJWT, claims_Valid.
    rewrite Hv. rewrite Hsecret.
    replace (now env' <? now env + 60) with true
      by (symmetry; apply Z.ltb_lt; exact Hlt).
    simpl. rewrite String.eqb_refl. simpl.
    split; [reflexivity|]. split; reflexivity.
  - intros Hge. unfold validateJWT, claims_Valid.
    rewrite Hv.
    replace (now env' <? now env + 60) with false
      by (symmetry; apply Z.ltb_ge; exact Hge).
    simpl. eexists. eexists. reflexivity.
Qed.

(** ** Passwords *)

Lemma cycle_take (key : string) (n : nat) (rest : string) :
  (n <= String.length rest)%nat -> cycle n key rest = take n rest.
Proof.
  revert rest. induction n as [|n IH]; intros rest Hn; simpl.
  - reflexivity.
  - destruct rest as [|c rest]; simpl in *; [lia|].
    rewrite IH by lia. reflexivity.
Qed.

(** bcrypt reads no more than 72 bytes of a password. *)
Lemma keyMaterial_72 (pw extra : string) :
  String.length pw = 72%nat -> keyMaterial (pw ++ extra) = keyMaterial pw.
Proof.
  intros Hl. unfold keyMaterial.
  rewrite !cycle_take by (rewrite !length_app; lia).
  rewrite app_assoc_s. rewrite <- Hl. rewrite !take_app. reflexivity.
Qed.

Lemma Atoi_10 : Atoi "10" = Some 10.
Proof. reflexivity. Qed.

Lemma newFromHash_generated (salt digest : string) :
  String.length salt = 22%nat ->
  (59 <= String.length ("$2a$10$" ++ salt ++ digest))%nat ->
  newFromHash ("$2a$10$" ++ salt ++ digest) = Some (10, salt, digest).
Proof.
  intros Hs Hl. unfold newFromHash.
  replace (Z.of_nat (String.length ("$2a$10$" ++ salt ++ digest)) <? 59)
    with false by (symmetry; apply Z.ltb_ge; lia).
  change ("$2a$10$" ++ salt ++ digest)
    with (String "$" (String "2" (String "a" (String "$"
            (String "1" (String "0" (String "$" (salt ++ digest)))))))).
  cbv iota beta.
  change (nat_of_ascii "2" <? nat_of_ascii "2")%nat with false.
  change (Ascii.eqb "a" "$") with false.
  cbv iota beta.
  change (drop 4 (String "$" (String "2" (String "a" (String "$"
            (String "1" (String "0" (String "$" (salt ++ digest)))))))))
    with (String "1" (String "0" (String "$" (salt ++ digest)))).
  change (take 2 (String "1" (String "0" (String "$" (salt ++ digest)))))
    with "10".
  rewrite Atoi_10.
  change ((10 <? 4) || (31 <? 10)) with false. cbv iota beta.
  change (drop 3 (String "1" (String "0" (String "$" (salt ++ digest)))))
    with (salt ++ digest).
  rewrite <- Hs. rewrite take_app, drop_app. reflexivity.
Qed.

Lemma NewAccount_hash (env : Env) (first last pw : string) (acc : Account) :
  NewAccount eksBlowfish env first last pw = (Some acc, None) ->
  EncryptedPassword acc
  = "$2a$10$" ++ salt env ++ bcrypt eksBlowfish pw DefaultCost (salt env)
  /\ Number acc = uuid env /\ Balance acc = 0 /\ ID acc = 0
  /\ FirstName acc = first /\ LastName acc = last
  /\ CreatedAt acc = now env.
Proof.
  unfold NewAccount, GenerateFromPassword.
  destruct (72 <? Z.of_nat (String.length pw)); [discriminate|].
  change (if DefaultCost <? 4 then DefaultCost else DefaultCost)
    with DefaultCost.
  change (31 <? DefaultCost) with false. cbv iota beta.
  intros H. injection H as H. subst acc. simpl.
  repeat split; reflexivity.
Qed.

(** C7, as the code has it: on an account NewAccount built with a
    password, ValidatePassword accepts that password; it accepts any
    password with the same 72 bytes of key material, so one that extends a
    password of 72 bytes; and it refuses a password whose bcrypt digest
    under the salt of the account is another. *)
Theorem ValidatePassword_after_NewAccount :
  forall (env : Env) (first last pw : string) (acc : Account),
    String.length (salt env) = 22%nat ->
    NewAccount eksBlowfish env first last pw = (Some acc, None) ->
    (59 <= String.length (EncryptedPassword acc))%nat ->
    ValidatePassword eksBlowfish acc pw = true
    /\ (forall other : string,
          keyMaterial other = keyMaterial pw ->
          ValidatePassword eksBlowfish acc other = true)
    /\ (forall extra : string,
          String.length pw = 72%nat ->
          ValidatePassword eksBlowfish acc (pw ++ extra) = true)
    /\ (forall other : string,
          bcrypt eksBlowfish other DefaultCost (salt env)
          <> bcrypt eksBlowfish pw DefaultCost (salt env) ->
          ValidatePassword eksBlowfish acc other = false).
Proof.
  intros env first last pw acc Hsalt Hnew Hlen.
  destruct (NewAccount_hash _ _ _ _ _ Hnew) as [Hh _].
  assert (forall other,
            ValidatePassword eksBlowfish acc other
            = String.eqb (bcrypt eksBlowfish other DefaultCost (salt env))
                (bcrypt eksBlowfish pw DefaultCost (salt env))) as Hv.
  { intros other. unfold ValidatePassword, CompareHashAndPassword.
    rewrite Hh in *. rewrite (newFromHash_generated _ _ Hsalt Hlen).
    change 10 with DefaultCost.
    destruct (String.eqb _ _); reflexivity. }
  assert (forall other, keyMaterial other = keyMaterial pw ->
                        ValidatePassword eksBlowfish acc other = true) as Hk.
  { intros other Hkm. rewrite Hv. unfold bcrypt. rewrite Hkm.
    apply String.eqb_refl. }
  split; [apply Hk; reflexivity|].
  split; [exact Hk|].
  split.
  - intros extra H72. apply Hk. apply keyMaterial_72. exact H72.
  - intros other Hne. rewrite Hv. apply String.eqb_neq. exact Hne.
Qed.

(** ** The middleware *)

Lemma GetAccountByID_store (id : Z) (db : sqlDB) :
  final (GetAccountByID id db) = db.
Proof.
  unfold GetAccountByID, Query. go.
  destruct (conn_err db); simpl; [reflexivity|].
  destruct (int4_ok id); simpl; [|reflexivity].
  destruct (filter (has_id id) (accounts db)); reflexivity.
Qed.

Lemma GetAccountByID_returns (id : Z) (db : sqlDB) :
  exists x, GetAccountByID id db = Returns x db.
Proof.
  unfold GetAccountByID, Query. go.
  destruct (conn_err db); simpl; [eauto|].
  destruct (int4_ok id); simpl; [|eauto].
  destruct (filter (has_id id) (accounts db)); eauto.
Qed.

Lemma GetAccountByID_missing (id : Z) (db : sqlDB) :
  no_account_with_id id db ->
  exists e, GetAccountByID id db = Returns (None, Some e) db
            /\ (query_error (select_by_id id) db = None ->
                e = "account " ++ itoa id ++ " not found").
Proof.
  intros Hn. unfold GetAccountByID, Query, query_error. go.
  destruct (conn_err db); simpl.
  - eexists. split; [reflexivity|discriminate].
  - destruct (int4_ok id); simpl.
    + rewrite (no_id_filter _ _ Hn). eexists. split; reflexivity.
    + eexists. split; [reflexivity|discriminate].
Qed.

Lemma GetAccountByID_found (id : Z) (db db' : sqlDB) (a : Account) (e : error) :
  GetAccountByID id db = Returns (Some a, e) db' ->
  e = None /\ db' = db /\ In a (accounts db) /\ ID a = id
  /\ conn_err db = None /\ int4_ok id = true.
Proof.
  unfold GetAccountByID, Query. go.
  destruct (conn_err db); simpl; [discriminate|].
  destruct (int4_ok id); simpl; [|discriminate].
  destruct (filter (has_id id) (accounts db)) as [|x l] eqn:Hf; simpl;
    [discriminate|].
  unfold scanIntoAccount. intros H. injection H as Hx He Hdb. subst.
  assert (In a (filter (has_id id) (accounts db'))) as Hin
      by (rewrite Hf; left; reflexivity).
  apply filter_In in Hin. destruct Hin as [Hin Hid].
  unfold has_id in Hid. apply Z.eqb_eq in Hid.
  repeat split; auto.
Qed.

Lemma validateJWT_ok (env : Env) (t : tokenString) (token : option Token) :
  validateJWT HMAC env t = (token, None) ->
  exists alg claims sig,
    t = Compact alg claims sig
    /\ token = Some {| Method_Alg := alg; Claims := claims;
                       Signature := sig; Valid := true |}
    /\ SigningMethodHMAC alg = true
    /\ claims_Valid claims (now env) = true
    /\ sig = HMAC alg (JWT_SECRET env) (alg, claims).
Proof.
  unfold validateJWT. destruct t as [raw|alg claims sig]; [discriminate|].
  destruct (SigningMethodHMAC alg) eqn:Ha; simpl; [|discriminate].
  destruct (claims_Valid claims (now env)) eqn:Hc; simpl; [|discriminate].
  destruct (String.eqb_spec sig (HMAC alg (JWT_SECRET env) (alg, claims)))
    as [Hs|Hs]; simpl; [|discriminate].
  intros H. injection H as H. exists alg, claims, sig. auto.
Qed.

Lemma validateJWT_cases (env : Env) (t : tokenString) :
  (exists token e, validateJWT HMAC env t = (token, Some e))
  \/ (exists token, validateJWT HMAC env t = (Some token, None)
                    /\ Valid token = true).
Proof.
  unfold validateJWT. destruct t as [raw|alg claims sig]; [left; eauto|].
  destruct (SigningMethodHMAC alg); simpl; [|left; eauto].
  destruct (claims_Valid claims (now env)); simpl; [|left; eauto].
  destruct (String.eqb sig (HMAC alg (JWT_SECRET env) (alg, claims))); simpl;
    [|left; eauto].
  right. eexists. split; reflexivity.
Qed.

(** A request the middleware lets through reaches the handler as it came. *)
Lemma withJWTAuth_permitted (h : HandlerFunc) (db : sqlDB) (r : Request)
  (env : Env) (a : Account) :
  permitted HMAC db r env = Some a ->
  serve (withJWTAuth HMAC h) db r env = serve h db r env.
Proof.
  unfold permitted, serve, withJWTAuth.
  destruct (validateJWT_cases env (x_jwt_token r)) as
    [[token [e Hv]]|[token [Hv Hvalid]]]; rewrite Hv.
  - destruct token; discriminate.
  - unfold getID. destruct (Atoi (Vars_id r)) as [id|]; [|discriminate].
    rewrite Hvalid. simpl. go.
    destruct (GetAccountByID_returns id db) as [[acc e] Hg]. rewrite Hg.
    destruct acc as [acc|]; [|discriminate].
    destruct e as [e|]; [discriminate|].
    destruct (claim "accountNumber" (Claims token)) as [[z|n|]|];
      try discriminate.
    destruct (String.eqb (Number acc) n); [|discriminate].
    intros _. reflexivity.
Qed.

(** A request it does not let through gets 403 with one of two messages,
    whatever the handler is, and the store is as before. *)
Lemma withJWTAuth_refused (h : HandlerFunc) (db : sqlDB) (r : Request)
  (env : Env) :
  permitted HMAC db r env = None ->
  exists msg,
    serve (withJWTAuth HMAC h) db r env = (Response (forbidden msg), db)
    /\ (msg = "invalid token" \/ msg = "permission denied").
Proof.
  unfold permitted, serve, withJWTAuth.
  destruct (validateJWT_cases env (x_jwt_token r)) as
    [[token [e Hv]]|[token [Hv Hvalid]]]; rewrite Hv.
  - intros _. exists "invalid token". split; [reflexivity|left; reflexivity].
  - unfold getID. rewrite Hvalid. simpl.
    destruct (Atoi (Vars_id r)) as [id|];
      [|intros _; exists "permission denied"; split;
        [reflexivity|right; reflexivity]].
    go.
    destruct (GetAccountByID_returns id db) as [[acc e] Hg]. rewrite Hg.
    destruct e as [e|].
    { intros _. exists "permission denied". split;
        [reflexivity|right; reflexivity]. }
    destruct acc as [acc|].
    2:{ exfalso. revert Hg. unfold GetAccountByID, Query. go.
        destruct (conn_err db); simpl; [discriminate|].
        destruct (int4_ok id); simpl; [|discriminate].
        destruct (filter (has_id id) (accounts db)); discriminate. }
    destruct (claim "accountNumber" (Claims token)) as [[z|n|]|];
      try (intros _; exists "permission denied"; split;
           [reflexivity|right; reflexivity]).
    destruct (String.eqb (Number acc) n); [discriminate|].
    intros _; exists "permission denied"; split;
      [reflexivity|right; reflexivity].
Qed.

Lemma permitted_account (db : sqlDB) (r : Request) (env : Env) (a : Account) :
  permitted HMAC db r env = Some a ->
  exists id, Atoi (Vars_id r) = Some id
             /\ GetAccountByID id db = Returns (Some a, None) db.
Proof.
  unfold permitted.
  destruct (validateJWT HMAC env (x_jwt_token r)) as [[token|] [e|]];
    try discriminate.
  destruct (Atoi (Vars_id r)) as [id|]; [|discriminate].
  destruct (GetAccountByID id db) as [[[acc|] [e|]] db'|] eqn:Hg;
    try discriminate.
  destruct (GetAccountByID_found _ _ _ _ _ Hg) as [_ [-> _]].
  destruct (claim "accountNumber" (Claims token)) as [[z|n|]|];
    try discriminate.
  destruct (String.eqb (Number acc) n) eqn:E; [|discriminate].
  intros H. injection H as H. subst acc.
  exists id. split; [reflexivity|exact Hg].
Qed.

Lemma router_protected (db : sqlDB) (r : Request) (env : Env) (idStr : string) :
  URL r = path_accounts_id idStr ->
  Method r = "GET" \/ Method r = "DELETE" ->
  serve (router eksBlowfish HMAC) db r env
  = serve (withJWTAuth HMAC (makeHandleFunc handleAccountById)) db r env.
Proof.
  intros Hurl Hm. unfold serve, router, allows. rewrite Hurl.
  destruct Hm as [Hm|Hm]; rewrite Hm; reflexivity.
Qed.

(** C3, as the code has it: for each cause of refusal the middleware
    answers 403 without calling the handler it protects, whatever that
    handler is, and leaves the store as it was; the body says "invalid
    token" when the token is malformed, expired or wrongly signed, and
    "permission denied" when the id is of no account or the number of the
    account is not the claim.  The same holds through the router for GET and
    DELETE on /accounts/{id}. *)
Theorem auth_failure_is_forbidden :
  forall (c : Cause) (db : sqlDB) (r : Request) (env : Env),
    has_cause HMAC c db r env ->
    (forall h : HandlerFunc,
        serve (withJWTAuth HMAC h) db r env
        = (Response (forbidden (cause_message c)), db))
    /\ (forall idStr : string,
          URL r = path_accounts_id idStr ->
          Method r = "GET" \/ Method r = "DELETE" ->
          serve (router eksBlowfish HMAC) db r env
          = (Response (forbidden (cause_message c)), db)).
Proof.
  intros c db r env Hc.
  assert (forall h : HandlerFunc,
             serve (withJWTAuth HMAC h) db r env
             = (Response (forbidden (cause_message c)), db)) as Hall.
  { intros h. unfold serve, withJWTAuth.
    destruct c; simpl in Hc.
    - destruct Hc as [raw Ht]. rewrite Ht. reflexivity.
    - destruct Hc as [alg [claims [sig [Ht [Ha He]]]]]. rewrite Ht.
      unfold validateJWT, claims_Valid. rewrite Ha, He. reflexivity.
    - destruct Hc as [alg [claims [sig [Ht [Ha Hs]]]]]. rewrite Ht.
      unfold validateJWT. rewrite Ha. simpl.
      destruct (claims_Valid claims (now env)); simpl; [|reflexivity].
      destruct (String.eqb_spec sig (HMAC alg (JWT_SECRET env) (alg, claims)))
        as [E|E]; [contradiction|]. reflexivity.
    - destruct Hc as [token [id [Hv [Hid [Hconn Hn]]]]]. rewrite Hv.
      destruct (validateJWT_ok _ _ _ Hv) as [alg [cl [sig [_ [Ht _]]]]].
      injection Ht as Ht. subst token. simpl.
      unfold getID. rewrite Hid. go.
      destruct (GetAccountByID_missing id db Hn) as [e [Hg _]].
      rewrite Hg. reflexivity.
    - destruct Hc as [token [id [a [Hv [Hid [Hg Hne]]]]]]. rewrite Hv.
      destruct (validateJWT_ok _ _ _ Hv) as [alg [cl [sig [_ [Ht _]]]]].
      injection Ht as Ht. subst token. simpl in *.
      unfold getID. rewrite Hid. go. rewrite Hg.
      destruct (claim "accountNumber" cl) as [[z|n|]|]; try reflexivity.
      destruct (String.eqb_spec (Number a) n) as [E|E]; [|reflexivity].
      exfalso. apply Hne. rewrite E. reflexivity. }
  split; [exact Hall|].
  intros idStr Hurl Hm. rewrite (router_protected _ _ _ _ Hurl Hm).
  apply Hall.
Qed.

Lemma permitted_missing (db : sqlDB) (r : Request) (env : Env) (id : Z) :
  Atoi (Vars_id r) = Some id ->
  no_account_with_id id db ->
  permitted HMAC db r env = None.
Proof.
  intros Hid Hn. unfold permitted.
  destruct (validateJWT HMAC env (x_jwt_token r)) as [[token|] [e|]];
    try reflexivity.
  rewrite Hid. destruct (GetAccountByID_missing id db Hn) as [e [Hg _]].
  rewrite Hg. reflexivity.
Qed.

(** C4, as the code has it: GET /accounts/{id} for an id of no account is
    answered 403 by the middleware of the route, the store unchanged; the
    handler behind it, which the earlier server mounts on the route as it
    is, answers 400 with the error of the store, "account <id> not found"
    when the query is executed.  No case answers 404. *)
Theorem get_missing_account_is_403_or_400 :
  forall (db : sqlDB) (r : Request) (env : Env) (idStr : string) (id : Z),
    URL r = path_accounts_id idStr ->
    Method r = "GET" ->
    Atoi idStr = Some id ->
    no_account_with_id id db ->
    (exists msg,
        serve (router eksBlowfish HMAC) db r env
        = (Response (forbidden msg), db)
        /\ (msg = "invalid token" \/ msg = "permission denied"))
    /\ (exists msg,
           serve (makeHandleFunc handleAccountById) db r env
           = (Response (reply StatusBadRequest (json_ApiError msg)), db)
           /\ (query_error (select_by_id id) db = None ->
               msg = "account " ++ itoa id ++ " not found")).
Proof.
  intros db r env idStr id Hurl Hm Hid Hn.
  assert (Atoi (Vars_id r) = Some id) as Hid'
      by (unfold Vars_id; rewrite Hurl; exact Hid).
  split.
  - rewrite (router_protected _ _ _ _ Hurl (or_introl Hm)).
    apply withJWTAuth_refused.
    apply (permitted_missing _ _ _ _ Hid' Hn).
  - destruct (GetAccountByID_missing id db Hn) as [e [Hg He]].
    exists e. split; [|exact He].
    unfold serve, makeHandleFunc, handleAccountById, getID.
    rewrite Hid', Hm. go. rewrite Hg. reflexivity.
Qed.

(** ** What a request does to the table *)

Ltac break_match :=
  match goal with
  | |- context [match ?x with _ => _ end] => destruct x eqn:?
  end.

Lemma GetAccounts_store (db : sqlDB) : final (GetAccounts db) = db.
Proof.
  unfold GetAccounts, Query. go.
  destruct (conn_err db); reflexivity.
Qed.

Lemma GetAccountByNumber_store (number : string) (db : sqlDB) :
  final (GetAccountByNumber number db) = db.
Proof.
  unfold GetAccountByNumber, Query. go.
  destruct (conn_err db); simpl; [reflexivity|].
  destruct (filter (has_number number) (accounts db)); reflexivity.
Qed.

Lemma Query_cases {R : Type} (q : stmt R) (db : sqlDB) :
  (exists e, Query q db = Returns (None, Some e) db)
  \/ (exists rows db', run_stmt q db = inr (rows, db')
                       /\ Query q db = Returns (Some rows, None) db').
Proof.
  unfold Query. destruct (conn_err db); [left; eauto|].
  destruct (run_stmt q db) as [e|[rows db']]; [left; eauto|].
  right. eauto.
Qed.

Lemma CreateAccount_changes (env : Env) (acc : Account) (db : sqlDB) :
  Number acc = uuid env -> Balance acc = 0 -> CreatedAt acc = now env ->
  changes env db (final (CreateAccount acc db)).
Proof.
  intros Hn Hb Ht. unfold CreateAccount. go. rewrite Hn, Hb, Ht.
  destruct (Query_cases (insert_account (FirstName acc) (LastName acc)
                           (uuid env) (EncryptedPassword acc) 0 (now env)) db)
    as [[e Hq]|[rows [db' [Hr Hq]]]]; rewrite Hq; simpl.
  - left; reflexivity.
  - right. apply step_insert with (first := FirstName acc)
      (last := LastName acc) (encpw := EncryptedPassword acc).
    rewrite Hr. simpl in Hr.
    destruct (int4_ok (accounts_id_seq db) && int4_ok 0); [|discriminate].
    injection Hr as Hrows _. subst rows. reflexivity.
Qed.

Lemma DeleteAccount_changes (env : Env) (id : Z) (db : sqlDB) :
  changes env db (final (DeleteAccount id db)).
Proof.
  unfold DeleteAccount. go.
  destruct (Query_cases (delete_returning_id id) db)
    as [[e Hq]|[rows [db' [Hr Hq]]]]; rewrite Hq; simpl.
  - left; reflexivity.
  - assert (sql_step env db db') as H by (eapply step_delete; exact Hr).
    destruct rows; right; exact H.
Qed.

Lemma Transfer_changes (env : Env) (number : string) (amount : float64)
  (db : sqlDB) :
  changes env db (final (Transfer number amount db)).
Proof.
  unfold Transfer. go.
  destruct (Query_cases (update_balance_returning_id amount number) db)
    as [[e Hq]|[rows [db' [Hr Hq]]]]; rewrite Hq; simpl.
  - left; reflexivity.
  - assert (sql_step env db db') as H by (eapply step_update; exact Hr).
    destruct rows; right; exact H.
Qed.

Lemma WriteJSON_store (code : Z) (v : JSON) (wd : World) :
  exists e w, WriteJSON code v wd = Returns e {| resp := w; store := store wd |}.
Proof.
  unfold WriteJSON. destruct (Write_body _ _) as [w e]. eauto.
Qed.

Ltac write_json :=
  match goal with
  | |- context [WriteJSON ?c ?v ?wd] =>
      let e := fresh "e" in
      let w := fresh "w" in
      let H := fresh "H" in
      destruct (WriteJSON_store c v wd) as [e [w H]]; rewrite H; simpl
  end.

Lemma makeHandleFunc_store (f : apiFunc) (r : Request) (env : Env) (wd : World) :
  store (final (makeHandleFunc f r env wd)) = store (final (f r env wd)).
Proof.
  unfold makeHandleFunc. go.
  destruct (f r env wd) as [[e|] wd'|msg wd']; simpl; try reflexivity.
  write_json. reflexivity.
Qed.

Lemma handleAccountById_changes (r : Request) (env : Env) (wd : World) :
  changes env (store wd) (store (final (handleAccountById r env wd))).
Proof.
  unfold handleAccountById.
  destruct (getID r) as [id [e|]]; simpl; [left; reflexivity|].
  destruct (String.eqb (Method r) "GET").
  - go. pose proof (GetAccountByID_store id (store wd)) as Hs.
    destruct (GetAccountByID id (store wd)) as [[a [e|]] db'|msg db'];
      simpl in *; subst db'; try (left; reflexivity).
    write_json. left; reflexivity.
  - destruct (String.eqb (Method r) "DELETE"); [|left; reflexivity].
    go. pose proof (DeleteAccount_changes env id (store wd)) as Hs.
    destruct (DeleteAccount id (store wd)) as [[id' [e|]] db'|msg db'];
      simpl in *; try exact Hs.
    + write_json. exact Hs.
    + destruct (id' =? 0); write_json; exact Hs.
Qed.

Lemma handleTrasfer_changes (r : Request) (env : Env) (wd : World) :
  changes env (store wd) (store (final (handleTrasfer r env wd))).
Proof.
  unfold handleTrasfer.
  destruct (as_TransferRequest (Body r)) as [e|req]; [left; reflexivity|].
  go. pose proof (Transfer_changes env (ToAccount req) (Amount req) (store wd))
    as Hs.
  destruct (Transfer (ToAccount req) (Amount req) (store wd))
    as [[id' [e|]] db'|msg db']; simpl in *; try exact Hs.
  - write_json. exact Hs.
  - destruct (id' =? 0); write_json; exact Hs.
Qed.

Lemma handleAccount_changes (r : Request) (env : Env) (wd : World) :
  changes env (store wd)
    (store (final (handleAccount eksBlowfish r env wd))).
Proof.
  unfold handleAccount.
  destruct (String.eqb (Method r) "GET").
  - unfold handleGetAccounts. go.
    pose proof (GetAccounts_store (store wd)) as Hs.
    destruct (GetAccounts (store wd)) as [[a [e|]] db'|msg db'];
      simpl in *; subst db'; try (left; reflexivity).
    write_json. left; reflexivity.
  - destruct (String.eqb (Method r) "POST"); [|left; reflexivity].
    unfold handleCreateAccount.
    destruct (as_CreateAccountRequest (Body r)) as [e|req];
      [left; reflexivity|].
    destruct (NewAccount eksBlowfish env (car_FirstName req)
                (car_LastName req) (car_Password req))
      as [[acc|] [e|]] eqn:Hnew; simpl; try (left; reflexivity).
    destruct (NewAccount_hash _ _ _ _ _ Hnew) as [_ [Hn [Hb [_ [_ [_ Ht]]]]]].
    go. pose proof (CreateAccount_changes env acc (store wd) Hn Hb Ht) as Hs.
    destruct (CreateAccount acc (store wd)) as [[e|] db'|msg db'];
      simpl in *; try exact Hs.
    write_json. exact Hs.
Qed.

Lemma handleLogin_store (r : Request) (env : Env) (wd : World) :
  store (final (handleLogin eksBlowfish HMAC r env wd)) = store wd.
Proof.
  unfold handleLogin.
  destruct (as_LoginRequest (Body r)) as [e|req]; [reflexivity|].
  go. pose proof (GetAccountByNumber_store (lr_Number req) (store wd)) as Hs.
  destruct (GetAccountByNumber (lr_Number req) (store wd))
    as [[a [e|]] db'|msg db']; simpl in *; subst db'; try reflexivity.
  destruct a as [a|]; [|reflexivity].
  destruct (ValidatePassword eksBlowfish a (lr_Password req)); simpl;
    [|reflexivity].
  write_json. reflexivity.
Qed.

Lemma withJWTAuth_changes (h : HandlerFunc) (r : Request) (env : Env) :
  (forall wd, changes env (store wd) (store (final (h r env wd)))) ->
  forall wd,
    changes env (store wd) (store (final (withJWTAuth HMAC h r env wd))).
Proof.
  intros Hh wd. unfold withJWTAuth, invalidToken, permissionDenied.
  destruct (validateJWT HMAC env (x_jwt_token r)) as [token [e|]].
  { go. write_json. left; reflexivity. }
  destruct token as [token|]; [|left; reflexivity].
  destruct (Valid token); simpl; [|go; write_json; left; reflexivity].
  destruct (getID r) as [id [e|]]; [go; write_json; left; reflexivity|].
  go. pose proof (GetAccountByID_store id (store wd)) as Hs.
  destruct (GetAccountByID id (store wd)) as [[a [e|]] db'|msg db'];
    simpl in *; subst db'; try (left; reflexivity).
  { write_json. left; reflexivity. }
  destruct a as [a|]; [|left; reflexivity].
  destruct (claim "accountNumber" (Claims token)) as [[z|n|]|];
    try (write_json; left; reflexivity).
  destruct (String.eqb (Number a) n); [|write_json; left; reflexivity].
  apply (Hh {| resp := resp wd; store := store wd |}).
Qed.

(** Every request changes the table by one statement or not at all. *)
Lemma router_changes (db : sqlDB) (r : Request) (env : Env) :
  changes env db (snd (serve (router eksBlowfish HMAC) db r env)).
Proof.
  assert (forall (h : HandlerFunc) wd,
             snd (match h r env wd with
                  | Returns _ wd' =>
                      (Response (WriteHeader StatusOK (resp wd')), store wd')
                  | Panics msg wd' => (Aborted msg, store wd')
                  end) = store (final (h r env wd))) as Hsnd.
  { intros h wd. destruct (h r env wd); reflexivity. }
  unfold serve. rewrite Hsnd.
  set (wd := {| resp := newResponse; store := db |}).
  change db with (store wd) at 1.
  unfold router, allows.
  destruct (URL r).
  - destruct (existsb _ _); [|left; reflexivity].
    rewrite makeHandleFunc_store, handleLogin_store. left; reflexivity.
  - destruct (existsb _ _); [|left; reflexivity].
    rewrite makeHandleFunc_store. apply handleAccount_changes.
  - destruct (existsb _ _); [|left; reflexivity].
    apply withJWTAuth_changes. intros wd'.
    rewrite makeHandleFunc_store. apply handleAccountById_changes.
  - destruct (existsb _ _); [|left; reflexivity].
    rewrite makeHandleFunc_store. apply handleTrasfer_changes.
  - left; reflexivity.
Qed.

(** ** Invariants of the table *)

Lemma in_map_credit (k : Z) (number : string) (l : list Account) (a' : Account) :
  In a' (map (credit k number) l) ->
  exists a, In a l /\ a' = credit k number a.
Proof.
  intros H. apply in_map_iff in H. destruct H as [a [E Ha]].
  exists a. split; [exact Ha|symmetry; exact E].
Qed.

Lemma credit_same_but_balance (k : Z) (number : string) (a : Account) :
  same_but_balance a (credit k number a).
Proof.
  unfold credit, same_but_balance. destruct (has_number number a); simpl;
    repeat split; reflexivity.
Qed.

Lemma map_ID_credit (k : Z) (number : string) (l : list Account) :
  map ID (map (credit k number) l) = map ID l.
Proof.
  rewrite map_map. apply map_ext. intros a.
  destruct (credit_same_but_balance k number a) as [H _]. exact H.
Qed.


Lemma where_keeps_key (cond : Account -> bool) (rows : list Account) :
  NoDup (map ID rows) -> NoDup (map ID (filter cond rows)).
Proof.
  intros Hkey. induction rows as [|row rows IH]; simpl in *.
  - constructor.
  - inversion Hkey as [|x xs Hfresh Hrest]; subst.
    destruct (cond row); simpl; [|apply IH; exact Hrest].
    constructor; [|apply IH; exact Hrest].
    intros Hin. apply Hfresh. apply in_map_iff in Hin.
    destruct Hin as [other [E Hother]]. apply filter_In in Hother.
    apply in_map_iff. exists other. split; [exact E|apply Hother].
Qed.

Lemma row_of_id (rows : list Account) (a b : Account) :
  NoDup (map ID rows) -> In a rows -> In b rows -> ID a = ID b -> a = b.
Proof.
  induction rows as [|row rows IH]; simpl; intros Hkey Ha Hb E;
    [contradiction|].
  inversion Hkey as [|x xs Hfresh Hrest]; subst.
  destruct Ha as [Ha|Ha], Hb as [Hb|Hb]; subst.
  - reflexivity.
  - exfalso. apply Hfresh. rewrite E. apply in_map. exact Hb.
  - exfalso. apply Hfresh. rewrite <- E. apply in_map. exact Ha.
  - apply IH; assumption.
Qed.

(** The three statements, by what they make of the table. *)
Lemma sql_step_inv (env : Env) (db db' : sqlDB) :
  sql_step env db db' ->
  conn_err db' = conn_err db
  /\ ((exists row,
          accounts db' = (accounts db ++ [row])%list
          /\ ID row = accounts_id_seq db /\ Number row = uuid env
          /\ accounts_id_seq db' = accounts_id_seq db + 1)
      \/ (exists id,
             accounts db' = filter (fun a => negb (has_id id a)) (accounts db)
             /\ accounts_id_seq db' = accounts_id_seq db)
      \/ (exists k number,
             accounts db' = map (credit k number) (accounts db)
             /\ accounts_id_seq db' = accounts_id_seq db)).
Proof.
  intros [first last encpw H|id rows H|amount number rows H]; simpl in H.
  - destruct (int4_ok (accounts_id_seq db) && int4_ok 0); [|discriminate].
    injection H as H. subst db'. simpl. split; [reflexivity|].
    left. eexists. repeat split; reflexivity.
  - destruct (int4_ok id); [|discriminate].
    injection H as _ H. subst db'. simpl. split; [reflexivity|].
    right. left. exists id. split; reflexivity.
  - destruct (int4_in amount) as [k|]; [|discriminate].
    destruct (forallb _ _); [|discriminate].
    injection H as _ H. subst db'. simpl. split; [reflexivity|].
    right. right. exists k, number. split; reflexivity.
Qed.

Lemma sql_step_wf (env : Env) (db db' : sqlDB) :
  wf db -> sql_step env db db' -> wf db'.
Proof.
  intros [Hseq [Hids Hnd]] Hstep.
  destruct (sql_step_inv _ _ _ Hstep) as
    [_ [[row [Ha [Hid [_ Hs]]]]|[[id [Ha Hs]]|[k [number [Ha Hs]]]]]];
    unfold wf; rewrite Ha, Hs; (split; [lia|]).
  - split.
    + apply Forall_app. split.
      * eapply Forall_impl; [|exact Hids]. simpl. intros a H. lia.
      * constructor; [lia|constructor].
    + rewrite map_app. simpl. rewrite Hid.
      apply NoDup_app;
        [exact Hnd|constructor; [intros []|constructor]|].
      intros x Hx [Hx'|[]]. subst x.
      apply in_map_iff in Hx. destruct Hx as [a [E Hin]].
      rewrite Forall_forall in Hids. specialize (Hids a Hin). lia.
  - split.
    + apply Forall_forall. intros a Hin. apply filter_In in Hin.
      rewrite Forall_forall in Hids. apply Hids. apply Hin.
    + apply where_keeps_key. exact Hnd.
  - split.
    + apply Forall_forall. intros a' Hin.
      destruct (in_map_credit _ _ _ _ Hin) as [a [Hin' E]]. subst a'.
      destruct (credit_same_but_balance k number a) as [Hsame _].
      rewrite Hsame. rewrite Forall_forall in Hids. apply Hids. exact Hin'.
    + rewrite map_ID_credit. exact Hnd.
Qed.

Lemma sql_step_gone (env : Env) (id : Z) (db db' : sqlDB) :
  gone id db -> sql_step env db db' -> gone id db'.
Proof.
  intros [Hlt Hno] Hstep. unfold gone, no_account_with_id in *.
  destruct (sql_step_inv _ _ _ Hstep) as
    [_ [[row [Ha [Hid [_ Hs]]]]|[[id0 [Ha Hs]]|[k [number [Ha Hs]]]]]];
    rewrite Ha, Hs.
  - split; [lia|]. intros a Hin. apply in_app_or in Hin.
    destruct Hin as [Hin|[Hin|[]]]; [apply Hno; exact Hin|].
    subst a. lia.
  - split; [exact Hlt|]. intros a Hin. apply filter_In in Hin.
    apply Hno. apply Hin.
  - split; [exact Hlt|]. intros a' Hin.
    destruct (in_map_credit _ _ _ _ Hin) as [a [Hin' E]]. subst a'.
    destruct (credit_same_but_balance k number a) as [Hsame _].
    rewrite Hsame. apply Hno. exact Hin'.
Qed.

Lemma with_conn_wf (c : option string) (db : sqlDB) :
  wf db -> wf (with_conn c db).
Proof. intros H. exact H. Qed.

Lemma with_conn_gone (c : option string) (id : Z) (db : sqlDB) :
  gone id db -> gone id (with_conn c db).
Proof. intros H. exact H. Qed.

Lemma run_gone (id : Z) (events : list Event) :
  forall db, gone id db -> gone id (run eksBlowfish HMAC events db).
Proof.
  induction events as [|ev events IH]; intros db Hg; simpl.
  - exact Hg.
  - apply IH.
    destruct (router_changes (with_conn (ev_conn ev) db) (ev_request ev)
                (ev_env ev)) as [E|Hstep].
    + rewrite E. apply with_conn_gone. exact Hg.
    + eapply sql_step_gone; [|exact Hstep]. apply with_conn_gone. exact Hg.
Qed.

Lemma run_wf (events : list Event) :
  forall db, wf db -> wf (run eksBlowfish HMAC events db).
Proof.
  induction events as [|ev events IH]; intros db Hg; simpl.
  - exact Hg.
  - apply IH.
    destruct (router_changes (with_conn (ev_conn ev) db) (ev_request ev)
                (ev_env ev)) as [E|Hstep].
    + rewrite E. apply with_conn_wf. exact Hg.
    + eapply sql_step_wf; [|exact Hstep]. apply with_conn_wf. exact Hg.
Qed.

(** The table of a new database is well formed, and so is every table the
    server reaches from it. *)
Lemma Init_wf : wf Init.
Proof.
  split; [simpl; lia|]. split; constructor.
Qed.

Lemma reachable_wf (events : list Event) :
  wf (run eksBlowfish HMAC events Init).
Proof. apply run_wf. exact Init_wf. Qed.

Lemma GetAccounts_lists (db db' : sqlDB) (l : list Account) (e : error) :
  GetAccounts db = Returns (Some l, e) db' -> l = accounts db.
Proof.
  unfold GetAccounts, Query. go.
  destruct (conn_err db); simpl; [discriminate|].
  intros H. injection H as H _ _. symmetry. exact H.
Qed.

(** ** DELETE /accounts/{id} *)

Lemma DeleteAccount_existing (id : Z) (db : sqlDB) (a : Account) :
  conn_err db = None -> int4_ok id = true ->
  In a (accounts db) -> ID a = id ->
  DeleteAccount id db
  = Returns (id, None)
      (with_accounts (filter (fun x => negb (has_id id x)) (accounts db)) db).
Proof.
  intros Hc Hi Hin Hid. unfold DeleteAccount, Query. go.
  rewrite Hc. simpl. rewrite Hi.
  destruct (where_some (has_id id) (accounts db) a Hin) as
    [x [rest [Hf [_ Hx]]]].
  { unfold has_id. apply Z.eqb_eq. exact Hid. }
  rewrite Hf. simpl. unfold has_id in Hx. apply Z.eqb_eq in Hx.
  rewrite Hx. reflexivity.
Qed.

(** The reply to a DELETE that removed a row: status 204, which carries
    no body, so neither the object with the id nor the 400 that
    makeHandleFunc writes for the error of the encoder reaches the client. *)
Lemma delete_existing_reply (db : sqlDB) (r : Request) (env : Env)
  (id : Z) (a : Account) :
  Atoi (Vars_id r) = Some id -> Method r = "DELETE" ->
  wf db -> conn_err db = None -> int4_ok id = true ->
  In a (accounts db) -> ID a = id ->
  serve (makeHandleFunc handleAccountById) db r env
  = (Response {| wroteHeader := true; status := StatusNoContent;
                 header := [("Content-Type", "application/json")];
                 body := [] |},
     with_accounts (filter (fun x => negb (has_id id x)) (accounts db)) db).
Proof.
  intros Hid Hm Hwf Hc Hi Hin Ha.
  assert ((id =? 0) = false) as H0.
  { apply Z.eqb_neq. destruct Hwf as [_ [Hids _]].
    rewrite Forall_forall in Hids. specialize (Hids a Hin). lia. }
  unfold serve, makeHandleFunc, handleAccountById, getID.
  rewrite Hid, Hm. go.
  rewrite (DeleteAccount_existing id db a Hc Hi Hin Ha). simpl.
  rewrite H0. reflexivity.
Qed.

Lemma deleted_is_gone (id : Z) (db : sqlDB) (a : Account) :
  wf db -> In a (accounts db) -> ID a = id ->
  gone id
    (with_accounts (filter (fun x => negb (has_id id x)) (accounts db)) db).
Proof.
  intros [_ [Hids _]] Hin Ha. split; simpl.
  - rewrite Forall_forall in Hids. specialize (Hids a Hin). lia.
  - intros x Hx. simpl in Hx. apply filter_In in Hx. destruct Hx as [_ Hx].
    unfold has_id in Hx. apply negb_true_iff in Hx.
    apply Z.eqb_neq. exact Hx.
Qed.

(** C2, as the code has it.  DELETE /accounts/{id} for an id of no
    account: the middleware of the route answers 403 and the store is
    unchanged; the handler behind it, which the earlier server mounts on the
    route as it is, answers 404 when the query is executed.  For the id of an
    account, with the token of that account: the status is 204, the row is
    removed, and no listing of the accounts after any further requests has
    an account of that id. *)
Theorem delete_account_by_id :
  forall (db : sqlDB) (r : Request) (env : Env) (idStr : string) (id : Z),
    URL r = path_accounts_id idStr ->
    Method r = "DELETE" ->
    Atoi idStr = Some id ->
    (no_account_with_id id db ->
     (exists msg,
         serve (router eksBlowfish HMAC) db r env
         = (Response (forbidden msg), db)
         /\ (msg = "invalid token" \/ msg = "permission denied"))
     /\ (query_error (delete_returning_id id) db = None ->
         exists msg,
           serve (makeHandleFunc handleAccountById) db r env
           = (Response (reply StatusNotFound (json_ApiError msg)), db)))
    /\ (forall a : Account,
          wf db ->
          permitted HMAC db r env = Some a ->
          exists w db',
            serve (router eksBlowfish HMAC) db r env = (Response w, db')
            /\ status w = StatusNoContent
            /\ In a (accounts db) /\ ID a = id
            /\ accounts db'
               = filter (fun x => negb (has_id id x)) (accounts db)
            /\ forall (events : list Event) (l : list Account) (e : error)
                      (db'' : sqlDB),
                 GetAccounts (run eksBlowfish HMAC events db')
                 = Returns (Some l, e) db'' ->
                 forall x, In x l -> ID x <> id).
Proof.
  intros db r env idStr id Hurl Hm Hid.
  assert (Atoi (Vars_id r) = Some id) as Hid'
      by (unfold Vars_id; rewrite Hurl; exact Hid).
  split.
  - intros Hn. split.
    + rewrite (router_protected _ _ _ _ Hurl (or_intror Hm)).
      apply withJWTAuth_refused.
      apply (permitted_missing _ _ _ _ Hid' Hn).
    + intros Hq. destruct (query_error_none _ _ Hq) as [Hc [rows [db' Hr]]].
      assert (int4_ok id = true) as Hi.
      { simpl in Hr. destruct (int4_ok id); [reflexivity|discriminate]. }
      eexists.
      unfold serve, makeHandleFunc, handleAccountById, getID.
      rewrite Hid', Hm. go.
      rewrite (DeleteAccount_missing id db Hc Hi Hn). reflexivity.
  - intros a Hwf Hp.
    destruct (permitted_account _ _ _ _ Hp) as [id' [Hid'' Hg]].
    assert (id' = id) by congruence. subst id'.
    destruct (GetAccountByID_found _ _ _ _ _ Hg) as
      [_ [_ [Hin [Ha [Hc Hi]]]]].
    rewrite (router_protected _ _ _ _ Hurl (or_intror Hm)).
    rewrite (withJWTAuth_permitted _ _ _ _ _ Hp).
    rewrite (delete_existing_reply db r env id a Hid' Hm Hwf Hc Hi Hin Ha).
    eexists. eexists. split; [reflexivity|].
    split; [reflexivity|]. split; [exact Hin|]. split; [exact Ha|].
    split; [reflexivity|].
    intros events l e db'' Hl x Hx.
    apply GetAccounts_lists in Hl. subst l.
    pose proof (run_gone id events _ (deleted_is_gone id db a Hwf Hin Ha))
      as [_ Hno].
    apply Hno. exact Hx.
Qed.

(** ** The number of an account *)











Lemma serve_store (h : HandlerFunc) (db : sqlDB) (r : Request) (env : Env) :
  snd (serve h db r env)
  = store (final (h r env {| resp := newResponse; store := db |})).
Proof.
  unfold serve. destruct (h r env _); reflexivity.
Qed.






(** ** The credential and the responses *)

Lemma json_Account_public (a1 a2 : Account) :
  same_public a1 a2 -> json_Account a1 = json_Account a2.
Proof.
  unfold same_public, scrub, with_password, json_Account. intros H.
  injection H as H1 H2 H3 H4 H5 H6. congruence.
Qed.

Lemma same_public_fields (a1 a2 : Account) :
  same_public a1 a2 ->
  ID a1 = ID a2 /\ Number a1 = Number a2 /\ Balance a1 = Balance a2.
Proof.
  unfold same_public, scrub, with_password. intros H.
  injection H as H1 H2 H3 H4 H5 H6. auto.
Qed.

Lemma Forall2_filter {A : Type} (R : A -> A -> Prop) (p : A -> bool)
  (l1 l2 : list A) :
  (forall a b, R a b -> p a = p b) ->
  Forall2 R l1 l2 -> Forall2 R (filter p l1) (filter p l2).
Proof.
  intros Hp H. induction H as [|a b l1 l2 Hab H IH]; simpl.
  - constructor.
  - rewrite (Hp a b Hab). destruct (p b); [constructor|]; assumption.
Qed.

Lemma Forall2_map_eq {A B : Type} (R : A -> A -> Prop) (f : A -> B)
  (l1 l2 : list A) :
  (forall a b, R a b -> f a = f b) ->
  Forall2 R l1 l2 -> map f l1 = map f l2.
Proof.
  intros Hf H. induction H as [|a b l1 l2 Hab H IH]; simpl.
  - reflexivity.
  - rewrite (Hf a b Hab), IH. reflexivity.
Qed.

Lemma Forall2_map {A : Type} (R : A -> A -> Prop) (g : A -> A)
  (l1 l2 : list A) :
  (forall a b, R a b -> R (g a) (g b)) ->
  Forall2 R l1 l2 -> Forall2 R (map g l1) (map g l2).
Proof.
  intros Hg H. induction H as [|a b l1 l2 Hab H IH]; simpl.
  - constructor.
  - constructor; [apply Hg; exact Hab|exact IH].
Qed.

Lemma Forall2_forallb {A : Type} (R : A -> A -> Prop) (p : A -> bool)
  (l1 l2 : list A) :
  (forall a b, R a b -> p a = p b) ->
  Forall2 R l1 l2 -> forallb p l1 = forallb p l2.
Proof.
  intros Hp H. induction H as [|a b l1 l2 Hab H IH]; simpl.
  - reflexivity.
  - rewrite (Hp a b Hab), IH. reflexivity.
Qed.

Lemma has_id_public (id : Z) (a b : Account) :
  same_public a b -> has_id id a = has_id id b.
Proof.
  intros H. destruct (same_public_fields _ _ H) as [Hid _].
  unfold has_id. rewrite Hid. reflexivity.
Qed.

Lemma has_number_public (n : string) (a b : Account) :
  same_public a b -> has_number n a = has_number n b.
Proof.
  intros H. destruct (same_public_fields _ _ H) as [_ [Hn _]].
  unfold has_number. rewrite Hn. reflexivity.
Qed.

Lemma credit_public (k : Z) (n : string) (a b : Account) :
  same_public a b -> same_public (credit k n a) (credit k n b).
Proof.
  intros H. unfold credit. rewrite (has_number_public n a b H).
  destruct (has_number n b); [|exact H].
  unfold same_public, scrub, with_password, add_balance in *. simpl.
  injection H as H1 H2 H3 H4 H5 H6. congruence.
Qed.

Lemma rel_bind {S A B : Type} (RS : S -> S -> Prop) (RA : A -> A -> Prop)
  (RB : B -> B -> Prop) (c1 c2 : M S A) (k1 k2 : A -> M S B) (s1 s2 : S) :
  rel_result RS RA (c1 s1) (c2 s2) ->
  (forall a1 a2 t1 t2, RA a1 a2 -> RS t1 t2 ->
                       rel_result RS RB (k1 a1 t1) (k2 a2 t2)) ->
  rel_result RS RB (bind c1 k1 s1) (bind c2 k2 s2).
Proof.
  intros Hc Hk. unfold bind.
  destruct (c1 s1) as [a1 t1|m1 t1], (c2 s2) as [a2 t2|m2 t2];
    simpl in Hc; try contradiction.
  - destruct Hc as [Ha Hs]. apply Hk; assumption.
  - exact Hc.
Qed.

Lemma rel_onStore {A : Type} (RA : A -> A -> Prop) (c1 c2 : M sqlDB A)
  (wd1 wd2 : World) :
  low_eq_world wd1 wd2 ->
  rel_result low_eq RA (c1 (store wd1)) (c2 (store wd2)) ->
  rel_result low_eq_world RA (onStore c1 wd1) (onStore c2 wd2).
Proof.
  intros [Hr _] Hc. unfold onStore.
  destruct (c1 (store wd1)) as [a1 t1|m1 t1],
           (c2 (store wd2)) as [a2 t2|m2 t2]; simpl in *; try contradiction.
  - destruct Hc as [Ha Hs]. split; [exact Ha|]. split; assumption.
  - destruct Hc as [Ha Hs]. split; [exact Ha|]. split; assumption.
Qed.

Lemma rel_WriteJSON (code : Z) (v1 v2 : JSON) (wd1 wd2 : World) :
  v1 = v2 -> low_eq_world wd1 wd2 ->
  rel_result low_eq_world eq (WriteJSON code v1 wd1) (WriteJSON code v2 wd2).
Proof.
  intros -> [Hr Hs]. unfold WriteJSON. rewrite Hr.
  destruct (Write_body _ _) as [w e]. simpl. split; [reflexivity|].
  split; [reflexivity|exact Hs].
Qed.

Lemma rel_ret {S A : Type} (RS : S -> S -> Prop) (RA : A -> A -> Prop)
  (a1 a2 : A) (s1 s2 : S) :
  RA a1 a2 -> RS s1 s2 -> rel_result RS RA (ret a1 s1) (ret a2 s2).
Proof. intros Ha Hs. split; assumption. Qed.

Lemma GetAccounts_rel (db1 db2 : sqlDB) :
  low_eq db1 db2 ->
  rel_result low_eq same_accounts (GetAccounts db1) (GetAccounts db2).
Proof.
  intros Hl. pose proof Hl as [Hrows [Hseq Hconn]].
  unfold GetAccounts, Query. go. rewrite Hconn.
  destruct (conn_err db2); simpl.
  - split; [|exact Hl]. split; [reflexivity|exact I].
  - split; [|exact Hl]. split; [reflexivity|exact Hrows].
Qed.

Lemma GetAccountByID_rel (id : Z) (db1 db2 : sqlDB) :
  low_eq db1 db2 ->
  rel_result low_eq same_account (GetAccountByID id db1)
    (GetAccountByID id db2).
Proof.
  intros Hl. pose proof Hl as [Hrows [Hseq Hconn]].
  unfold GetAccountByID, Query. go. rewrite Hconn.
  destruct (conn_err db2); simpl.
  { split; [|exact Hl]. split; [reflexivity|exact I]. }
  destruct (int4_ok id); simpl.
  2:{ split; [|exact Hl]. split; [reflexivity|exact I]. }
  pose proof (Forall2_filter same_public (has_id id) _ _
                (has_id_public id) Hrows) as Hf.
  destruct Hf as [|a b l1 l2 Hab Hf]; simpl.
  - split; [|exact Hl]. split; [reflexivity|exact I].
  - split; [|exact Hl]. split; [reflexivity|exact Hab].
Qed.

Lemma GetAccountByNumber_rel (n : string) (db1 db2 : sqlDB) :
  low_eq db1 db2 ->
  rel_result low_eq same_account (GetAccountByNumber n db1)
    (GetAccountByNumber n db2).
Proof.
  intros Hl. pose proof Hl as [Hrows [Hseq Hconn]].
  unfold GetAccountByNumber, Query. go. rewrite Hconn.
  destruct (conn_err db2); simpl.
  { split; [|exact Hl]. split; [reflexivity|exact I]. }
  pose proof (Forall2_filter same_public (has_number n) _ _
                (has_number_public n) Hrows) as Hf.
  destruct Hf as [|a b l1 l2 Hab Hf]; simpl.
  - split; [|exact Hl]. split; [reflexivity|exact I].
  - split; [|exact Hl]. split; [reflexivity|exact Hab].
Qed.

Lemma same_public_names (a1 a2 : Account) :
  same_public a1 a2 ->
  FirstName a1 = FirstName a2 /\ LastName a1 = LastName a2
  /\ CreatedAt a1 = CreatedAt a2.
Proof.
  unfold same_public, scrub, with_password. intros H.
  injection H as H1 H2 H3 H4 H5 H6. auto.
Qed.

Lemma CreateAccount_rel (a1 a2 : Account) (db1 db2 : sqlDB) :
  same_public a1 a2 ->
  low_eq db1 db2 ->
  rel_result low_eq eq (CreateAccount a1 db1) (CreateAccount a2 db2).
Proof.
  intros Ha Hl. pose proof Hl as [Hrows [Hseq Hconn]].
  destruct (same_public_fields _ _ Ha) as [_ [Hn Hb]].
  destruct (same_public_names _ _ Ha) as [Hf [Hla Ht]].
  unfold CreateAccount, Query. go. rewrite Hconn.
  destruct (conn_err db2) eqn:Hc; simpl.
  { split; [reflexivity|exact Hl]. }
  rewrite Hseq, Hb.
  destruct (int4_ok (accounts_id_seq db2) && int4_ok (Balance a2)); simpl.
  2:{ split; [reflexivity|exact Hl]. }
  split; [reflexivity|]. split; simpl; [|split; [lia|congruence]].
  apply Forall2_app; [exact Hrows|]. constructor; [|constructor].
  unfold same_public, scrub, with_password. simpl. congruence.
Qed.

Lemma DeleteAccount_rel (id : Z) (db1 db2 : sqlDB) :
  low_eq db1 db2 ->
  rel_result low_eq eq (DeleteAccount id db1) (DeleteAccount id db2).
Proof.
  intros Hl. pose proof Hl as [Hrows [Hseq Hconn]].
  unfold DeleteAccount, Query. go. rewrite Hconn.
  destruct (conn_err db2) eqn:Hc; simpl.
  { split; [reflexivity|exact Hl]. }
  destruct (int4_ok id); simpl.
  2:{ split; [reflexivity|exact Hl]. }
  assert (low_eq
            (with_accounts (filter (fun a => negb (has_id id a)) (accounts db1))
               db1)
            (with_accounts (filter (fun a => negb (has_id id a)) (accounts db2))
               db2)) as Hl'.
  { split; simpl; [|split; congruence].
    apply Forall2_filter; [|exact Hrows].
    intros a b Hab. rewrite (has_id_public id a b Hab). reflexivity. }
  rewrite (Forall2_map_eq same_public ID
             (filter (has_id id) (accounts db1))
             (filter (has_id id) (accounts db2))).
  - destruct (map ID (filter (has_id id) (accounts db2)));
      (split; [reflexivity|exact Hl']).
  - intros a b Hab. apply (same_public_fields _ _ Hab).
  - apply Forall2_filter; [apply has_id_public|exact Hrows].
Qed.

Lemma Transfer_rel (n : string) (amount : float64) (db1 db2 : sqlDB) :
  low_eq db1 db2 ->
  rel_result low_eq eq (Transfer n amount db1) (Transfer n amount db2).
Proof.
  intros Hl. pose proof Hl as [Hrows [Hseq Hconn]].
  unfold Transfer, Query. go. rewrite Hconn.
  destruct (conn_err db2) eqn:Hc; simpl.
  { split; [reflexivity|exact Hl]. }
  destruct (int4_in amount) as [k|]; simpl.
  2:{ split; [reflexivity|exact Hl]. }
  pose proof (Forall2_filter same_public (has_number n) _ _
                (has_number_public n) Hrows) as Hf.
  rewrite (Forall2_forallb same_public (fun a => int4_ok (Balance a + k))
             _ _ (fun a b Hab =>
                    f_equal (fun z => int4_ok (z + k))
                      (proj2 (proj2 (same_public_fields a b Hab)))) Hf).
  destruct (forallb _ _); simpl.
  2:{ split; [reflexivity|exact Hl]. }
  assert (low_eq (with_accounts (map (credit k n) (accounts db1)) db1)
                 (with_accounts (map (credit k n) (accounts db2)) db2)) as Hl'.
  { split; simpl; [|split; congruence].
    apply Forall2_map; [apply credit_public|exact Hrows]. }
  rewrite (Forall2_map_eq same_public ID _ _
             (fun a b Hab => proj1 (same_public_fields a b Hab)) Hf).
  destruct (map ID (filter (has_number n) (accounts db2)));
    (split; [reflexivity|exact Hl']).
Qed.

Lemma json_slice_public (l1 l2 : list Account) :
  Forall2 same_public l1 l2 ->
  JArray (map json_Account l1) = JArray (map json_Account l2).
Proof.
  intros H. f_equal.
  apply (Forall2_map_eq same_public json_Account _ _ json_Account_public H).
Qed.

Lemma handleGetAccounts_rel (r : Request) (env : Env) (wd1 wd2 : World) :
  low_eq_world wd1 wd2 ->
  rel_result low_eq_world eq (handleGetAccounts r env wd1)
    (handleGetAccounts r env wd2).
Proof.
  intros Hw. unfold handleGetAccounts.
  apply rel_bind with (RA := same_accounts).
  - apply rel_onStore; [exact Hw|]. apply GetAccounts_rel. apply Hw.
  - intros [l1 e1] [l2 e2] t1 t2 [He Hl] Ht. simpl in *. subst e2.
    destruct e1 as [e|]; [apply rel_ret; [reflexivity|exact Ht]|].
    apply rel_WriteJSON; [|exact Ht].
    destruct l1 as [l1|], l2 as [l2|]; try contradiction; simpl.
    + apply json_slice_public. exact Hl.
    + reflexivity.
Qed.

Lemma NewAccount_rel (eks1 eks2 : string -> Z -> string -> string)
  (env : Env) (first last pw : string) :
  snd (NewAccount eks1 env first last pw)
  = snd (NewAccount eks2 env first last pw)
  /\ match fst (NewAccount eks1 env first last pw),
           fst (NewAccount eks2 env first last pw) with
     | Some a1, Some a2 => same_public a1 a2
     | None, None => True
     | _, _ => False
     end.
Proof.
  unfold NewAccount, GenerateFromPassword.
  destruct (72 <? Z.of_nat (String.length pw)); simpl; [auto|].
  split; reflexivity.
Qed.

Lemma handleCreateAccount_rel (eks1 eks2 : string -> Z -> string -> string)
  (r : Request) (env : Env) (wd1 wd2 : World) :
  low_eq_world wd1 wd2 ->
  rel_result low_eq_world eq (handleCreateAccount eks1 r env wd1)
    (handleCreateAccount eks2 r env wd2).
Proof.
  intros Hw. unfold handleCreateAccount.
  destruct (as_CreateAccountRequest (Body r)) as [e|req];
    [apply rel_ret; [reflexivity|exact Hw]|].
  destruct (NewAccount_rel eks1 eks2 env (car_FirstName req)
              (car_LastName req) (car_Password req)) as [He Ha].
  destruct (NewAccount eks1 env _ _ _) as [a1 e1],
           (NewAccount eks2 env _ _ _) as [a2 e2]. simpl in *. subst e2.
  destruct e1 as [e|]; [apply rel_ret; [reflexivity|exact Hw]|].
  destruct a1 as [a1|], a2 as [a2|]; try contradiction.
  - apply rel_bind with (RA := eq).
    + apply rel_onStore; [exact Hw|].
      apply CreateAccount_rel; [exact Ha|apply Hw].
    + intros e1 e2 t1 t2 He Ht. subst e2.
      destruct e1 as [e|]; [apply rel_ret; [reflexivity|exact Ht]|].
      apply rel_WriteJSON; [|exact Ht]. apply json_Account_public. exact Ha.
  - split; [reflexivity|exact Hw].
Qed.

Lemma handleAccountById_rel (r : Request) (env : Env) (wd1 wd2 : World) :
  low_eq_world wd1 wd2 ->
  rel_result low_eq_world eq (handleAccountById r env wd1)
    (handleAccountById r env wd2).
Proof.
  intros Hw. unfold handleAccountById.
  destruct (getID r) as [id [e|]];
    [apply rel_ret; [reflexivity|exact Hw]|].
  destruct (String.eqb (Method r) "GET").
  - apply rel_bind with (RA := same_account).
    + apply rel_onStore; [exact Hw|]. apply GetAccountByID_rel. apply Hw.
    + intros [a1 e1] [a2 e2] t1 t2 [He Ha] Ht. simpl in *. subst e2.
      destruct e1 as [e|]; [apply rel_ret; [reflexivity|exact Ht]|].
      apply rel_WriteJSON; [|exact Ht].
      destruct a1 as [a1|], a2 as [a2|]; try contradiction; simpl.
      * apply json_Account_public. exact Ha.
      * reflexivity.
  - destruct (String.eqb (Method r) "DELETE");
      [|apply rel_ret; [reflexivity|exact Hw]].
    apply rel_bind with (RA := eq).
    + apply rel_onStore; [exact Hw|]. apply DeleteAccount_rel. apply Hw.
    + intros [id1 e1] x t1 t2 <- Ht.
      destruct e1 as [e|]; [apply rel_WriteJSON; [reflexivity|exact Ht]|].
      destruct (id1 =? 0); apply rel_WriteJSON; (reflexivity || exact Ht).
Qed.

Lemma handleTrasfer_rel (r : Request) (env : Env) (wd1 wd2 : World) :
  low_eq_world wd1 wd2 ->
  rel_result low_eq_world eq (handleTrasfer r env wd1)
    (handleTrasfer r env wd2).
Proof.
  intros Hw. unfold handleTrasfer.
  destruct (as_TransferRequest (Body r)) as [e|req];
    [apply rel_ret; [reflexivity|exact Hw]|].
  apply rel_bind with (RA := eq).
  - apply rel_onStore; [exact Hw|]. apply Transfer_rel. apply Hw.
  - intros [id1 e1] x t1 t2 <- Ht.
    destruct e1 as [e|]; [apply rel_WriteJSON; [reflexivity|exact Ht]|].
    destruct (id1 =? 0); apply rel_WriteJSON; (reflexivity || exact Ht).
Qed.

Lemma handleLogin_rel (eks1 eks2 : string -> Z -> string -> string)
  (r : Request) (env : Env) (wd1 wd2 : World) :
  URL r = path_login ->
  low_eq_world wd1 wd2 ->
  password_check eks1 (store wd1) r = password_check eks2 (store wd2) r ->
  rel_result low_eq_world eq (handleLogin eks1 HMAC r env wd1)
    (handleLogin eks2 HMAC r env wd2).
Proof.
  intros Hurl Hw Hpc. unfold handleLogin. unfold password_check in Hpc.
  rewrite Hurl in Hpc.
  destruct (as_LoginRequest (Body r)) as [e|req];
    [apply rel_ret; [reflexivity|exact Hw]|].
  pose proof Hw as [Hresp [Hrows [Hseq Hconn]]].
  unfold GetAccountByNumber, Query. go. rewrite Hconn.
  destruct (conn_err (store wd2)) eqn:Hc; simpl.
  { split; [reflexivity|]. split; [exact Hresp|].
    split; [exact Hrows|]. split; simpl; congruence. }
  assert (low_eq_world
            {| resp := resp wd1; store := store wd1 |}
            {| resp := resp wd2; store := store wd2 |}) as Hw'.
  { split; [exact Hresp|]. split; [exact Hrows|]. split; simpl; congruence. }
  pose proof (Forall2_filter same_public (has_number (lr_Number req)) _ _
                (has_number_public (lr_Number req)) Hrows) as Hf.
  destruct Hf as [|a b l1 l2 Hab Hf]; simpl.
  { split; [reflexivity|exact Hw']. }
  injection Hpc as Hpc. rewrite Hpc.
  destruct (ValidatePassword eks2 b (lr_Password req)); simpl.
  - destruct (same_public_fields _ _ Hab) as [_ [Hn _]]. rewrite Hn.
    apply rel_WriteJSON; [reflexivity|exact Hw'].
  - split; [reflexivity|exact Hw'].
Qed.

Lemma makeHandleFunc_rel (f1 f2 : apiFunc) (r : Request) (env : Env)
  (wd1 wd2 : World) :
  rel_result low_eq_world eq (f1 r env wd1) (f2 r env wd2) ->
  rel_result low_eq_world eq (makeHandleFunc f1 r env wd1)
    (makeHandleFunc f2 r env wd2).
Proof.
  intros Hf. unfold makeHandleFunc.
  apply rel_bind with (RA := eq); [exact Hf|].
  intros e1 e2 t1 t2 <- Ht.
  destruct e1 as [e|]; [|apply rel_ret; [reflexivity|exact Ht]].
  apply rel_bind with (RA := eq).
  - apply rel_WriteJSON; [reflexivity|exact Ht].
  - intros x1 x2 u1 u2 _ Hu. apply rel_ret; [reflexivity|exact Hu].
Qed.

Lemma writes_rel (code : Z) (v : JSON) (wd1 wd2 : World) :
  low_eq_world wd1 wd2 ->
  rel_result low_eq_world eq
    ((_ <- WriteJSON code v ;; ret tt) wd1)
    ((_ <- WriteJSON code v ;; ret tt) wd2).
Proof.
  intros Hw. apply rel_bind with (RA := eq).
  - apply rel_WriteJSON; [reflexivity|exact Hw].
  - intros x1 x2 u1 u2 _ Hu. apply rel_ret; [reflexivity|exact Hu].
Qed.

Lemma withJWTAuth_rel (h1 h2 : HandlerFunc) (r : Request) (env : Env) :
  (forall wd1 wd2, low_eq_world wd1 wd2 ->
                   rel_result low_eq_world eq (h1 r env wd1) (h2 r env wd2)) ->
  forall wd1 wd2,
    low_eq_world wd1 wd2 ->
    rel_result low_eq_world eq (withJWTAuth HMAC h1 r env wd1)
      (withJWTAuth HMAC h2 r env wd2).
Proof.
  intros Hh wd1 wd2 Hw. unfold withJWTAuth, invalidToken, permissionDenied.
  destruct (validateJWT HMAC env (x_jwt_token r)) as [token [e|]];
    [apply writes_rel; exact Hw|].
  destruct token as [token|]; [|split; [reflexivity|exact Hw]].
  destruct (Valid token); simpl; [|apply writes_rel; exact Hw].
  destruct (getID r) as [id [e|]]; [apply writes_rel; exact Hw|].
  apply rel_bind with (RA := same_account).
  - apply rel_onStore; [exact Hw|]. apply GetAccountByID_rel. apply Hw.
  - intros [a1 e1] [a2 e2] t1 t2 [He Ha] Ht. simpl in *. subst e2.
    destruct e1 as [e|]; [apply writes_rel; exact Ht|].
    destruct a1 as [a1|], a2 as [a2|]; try contradiction;
      [|split; [reflexivity|exact Ht]].
    destruct (same_public_fields _ _ Ha) as [_ [Hn _]]. rewrite Hn.
    destruct (claim "accountNumber" (Claims token)) as [[z|n|]|];
      try (apply writes_rel; exact Ht).
    destruct (String.eqb (Number a2) n); [|apply writes_rel; exact Ht].
    apply Hh. exact Ht.
Qed.

Lemma router_rel (eks1 eks2 : string -> Z -> string -> string)
  (r : Request) (env : Env) (wd1 wd2 : World) :
  low_eq_world wd1 wd2 ->
  password_check eks1 (store wd1) r = password_check eks2 (store wd2) r ->
  rel_result low_eq_world eq (router eks1 HMAC r env wd1)
    (router eks2 HMAC r env wd2).
Proof.
  intros Hw Hpc. unfold router, allows, routerReply.
  assert (forall code,
             rel_result low_eq_world (@eq unit)
               (Returns tt {| resp := WriteHeader code (resp wd1);
                              store := store wd1 |})
               (Returns tt {| resp := WriteHeader code (resp wd2);
                              store := store wd2 |})) as Hreply.
  { intros code. destruct Hw as [Hresp Hs]. rewrite Hresp.
    split; [reflexivity|]. split; [reflexivity|exact Hs]. }
  destruct (URL r) eqn:Hurl.
  - destruct (existsb _ _); [|apply Hreply].
    apply makeHandleFunc_rel. apply handleLogin_rel; assumption.
  - destruct (existsb _ _); [|apply Hreply].
    apply makeHandleFunc_rel. unfold handleAccount.
    destruct (String.eqb (Method r) "GET");
      [apply handleGetAccounts_rel; exact Hw|].
    destruct (String.eqb (Method r) "POST");
      [apply handleCreateAccount_rel; exact Hw|].
    apply rel_ret; [reflexivity|exact Hw].
  - destruct (existsb _ _); [|apply Hreply].
    apply withJWTAuth_rel; [|exact Hw].
    intros u1 u2 Hu. apply makeHandleFunc_rel.
    apply handleAccountById_rel. exact Hu.
  - destruct (existsb _ _); [|apply Hreply].
    apply makeHandleFunc_rel. apply handleTrasfer_rel. exact Hw.
  - apply Hreply.
Qed.

(** C5: the response to a request does not depend on the hashed
    passwords.  Two servers whose tables differ in the column
    encrypted_password only, and whose bcrypt may differ, answer every
    request alike (creation, listing, get by id, login and the others), as
    long as the check of the password at a login comes out the same; their
    tables again differ in that column only; and the JSON of an account is
    the same whatever its EncryptedPassword. *)
Theorem hashed_password_is_in_no_response :
  forall (eks1 eks2 : string -> Z -> string -> string) (db1 db2 : sqlDB)
         (r : Request) (env : Env),
    low_eq db1 db2 ->
    password_check eks1 db1 r = password_check eks2 db2 r ->
    fst (serve (router eks1 HMAC) db1 r env)
    = fst (serve (router eks2 HMAC) db2 r env)
    /\ low_eq (snd (serve (router eks1 HMAC) db1 r env))
         (snd (serve (router eks2 HMAC) db2 r env))
    /\ (forall (a : Account) (h : string),
          json_Account (with_password h a) = json_Account a).
Proof.
  intros eks1 eks2 db1 db2 r env Hl Hpc.
  assert (low_eq_world {| resp := newResponse; store := db1 |}
            {| resp := newResponse; store := db2 |}) as Hw
      by (split; [reflexivity|exact Hl]).
  pose proof (router_rel eks1 eks2 r env _ _ Hw Hpc) as H.
  unfold serve.
  destruct (router eks1 HMAC r env _) as [x1 t1|m1 t1],
           (router eks2 HMAC r env _) as [x2 t2|m2 t2];
    simpl in H; try contradiction;
    destruct H as [Hx [Hresp Hs]]; simpl.
  - rewrite Hresp. split; [reflexivity|]. split; [exact Hs|reflexivity].
  - rewrite Hx. split; [reflexivity|]. split; [exact Hs|reflexivity].
Qed.

End Properties.

(** * The theorems at the example inputs *)

Lemma example_db_wf : wf example_db.
Proof.
  split; [simpl; lia|]. split.
  - constructor; [simpl; lia|constructor].
  - constructor; [intros []|constructor].
Defined.


Lemma delete_not_found_message_names_zero_witness :
  serve (makeHandleFunc handleAccountById) example_db
    (request "DELETE" (path_accounts_id "7") no_token no_body) example_env
  = (Response (reply StatusNotFound (json_ApiError "account 0 not found")),
     example_db)
  /\ (7 <> 0 -> "account 0 not found" <> "account " ++ itoa 7 ++ " not found").
Proof.
  apply (delete_not_found_message_names_zero
           (request "DELETE" (path_accounts_id "7") no_token no_body)
           example_env example_db example_db "7" 7).
  - reflexivity.
  - reflexivity.
  - reflexivity.
  - vm_compute. reflexivity.
Defined.

Lemma token_valid_until_expiry_witness :
  exists claims sig,
    createJWT example_hmac example_env anna = (Compact "HS256" claims sig, None)
    /\ claim "accountNumber" claims = Some (CStr (Number anna))
    /\ claim "exp" claims = Some (CNum (now example_env + 60))
    /\ forall env' : Env,
         JWT_SECRET env' = JWT_SECRET example_env ->
         (now env' < now example_env + 60 ->
          exists token,
            validateJWT example_hmac env' (Compact "HS256" claims sig)
            = (Some token, None)
            /\ Valid token = true /\ Claims token = claims)
         /\ (now example_env + 60 <= now env' ->
             exists token e,
               validateJWT example_hmac env' (Compact "HS256" claims sig)
               = (token, Some e)).
Proof.
  apply (token_valid_until_expiry example_hmac example_env anna).
  simpl. lia.
Defined.

Lemma ValidatePassword_after_NewAccount_witness :
  ValidatePassword example_eks new_anna "secret" = true
  /\ (forall other : string,
        keyMaterial other = keyMaterial "secret" ->
        ValidatePassword example_eks new_anna other = true)
  /\ (forall extra : string,
        String.length "secret" = 72%nat ->
        ValidatePassword example_eks new_anna ("secret" ++ extra) = true)
  /\ (forall other : string,
        bcrypt example_eks other DefaultCost (salt example_env)
        <> bcrypt example_eks "secret" DefaultCost (salt example_env) ->
        ValidatePassword example_eks new_anna other = false).
Proof.
  apply (ValidatePassword_after_NewAccount example_eks example_env
           "Anna" "Adler" "secret" new_anna).
  - reflexivity.
  - vm_compute. reflexivity.
  - vm_compute. lia.
Defined.

Lemma example_db_no_account_2 : no_account_with_id 2 example_db.
Proof.
  intros a [H|[]]. subst a. vm_compute. discriminate.
Defined.

Lemma delete_account_by_id_witness :
  exists w db',
    serve (router example_eks example_hmac) example_db
      (request "DELETE" (path_accounts_id "1") anna_token no_body)
      example_env = (Response w, db')
    /\ status w = StatusNoContent
    /\ In anna (accounts example_db) /\ ID anna = 1
    /\ accounts db'
       = filter (fun x => negb (has_id 1 x)) (accounts example_db)
    /\ forall (events : list Event) (l : list Account) (e : error)
              (db'' : sqlDB),
         GetAccounts (run example_eks example_hmac events db')
         = Returns (Some l, e) db'' ->
         forall x, In x l -> ID x <> 1.
Proof.
  refine (proj2 (delete_account_by_id example_eks example_hmac example_db
                   (request "DELETE" (path_accounts_id "1") anna_token no_body)
                   example_env "1" 1 _ _ _) anna _ _).
  - reflexivity.
  - reflexivity.
  - reflexivity.
  - exact example_db_wf.
  - vm_compute. reflexivity.
Defined.

Lemma auth_failure_is_forbidden_witness :
  (forall h : HandlerFunc,
      serve (withJWTAuth example_hmac h) example_db
        (request "GET" (path_accounts_id "2") anna_token no_body) example_env
      = (Response (forbidden (cause_message AccountNotFound)), example_db))
  /\ (forall idStr : string,
        URL (request "GET" (path_accounts_id "2") anna_token no_body)
        = path_accounts_id idStr ->
        Method (request "GET" (path_accounts_id "2") anna_token no_body)
        = "GET"
        \/ Method (request "GET" (path_accounts_id "2") anna_token no_body)
           = "DELETE" ->
        serve (router example_eks example_hmac) example_db
          (request "GET" (path_accounts_id "2") anna_token no_body)
          example_env
        = (Response (forbidden (cause_message AccountNotFound)), example_db)).
Proof.
  apply (auth_failure_is_forbidden example_eks example_hmac AccountNotFound
           example_db
           (request "GET" (path_accounts_id "2") anna_token no_body)
           example_env).
  simpl. eexists. exists 2.
  split; [vm_compute; reflexivity|].
  split; [reflexivity|]. split; [reflexivity|].
  exact example_db_no_account_2.
Defined.

Lemma get_missing_account_is_403_or_400_witness :
  (exists msg,
      serve (router example_eks example_hmac) example_db
        (request "GET" (path_accounts_id "2") anna_token no_body) example_env
      = (Response (forbidden msg), example_db)
      /\ (msg = "invalid token" \/ msg = "permission denied"))
  /\ (exists msg,
         serve (makeHandleFunc handleAccountById) example_db
           (request "GET" (path_accounts_id "2") anna_token no_body)
           example_env
         = (Response (reply StatusBadRequest (json_ApiError msg)), example_db)
         /\ (query_error (select_by_id 2) example_db = None ->
             msg = "account " ++ itoa 2 ++ " not found")).
Proof.
  apply (get_missing_account_is_403_or_400 example_eks example_hmac
           example_db
           (request "GET" (path_accounts_id "2") anna_token no_body)
           example_env "2" 2).
  - reflexivity.
  - reflexivity.
  - reflexivity.
  - exact example_db_no_account_2.
Defined.

Lemma hashed_password_is_in_no_response_witness :
  fst (serve (router example_eks example_hmac) example_db
         (request "GET" path_accounts no_token no_body) example_env)
  = fst (serve (router (fun _ _ _ => EmptyString) example_hmac) other_db
           (request "GET" path_accounts no_token no_body) example_env)
  /\ low_eq
       (snd (serve (router example_eks example_hmac) example_db
               (request "GET" path_accounts no_token no_body) example_env))
       (snd (serve (router (fun _ _ _ => EmptyString) example_hmac) other_db
               (request "GET" path_accounts no_token no_body) example_env))
  /\ (forall (a : Account) (h : string),
        json_Account (with_password h a) = json_Account a).
Proof.
  apply (hashed_password_is_in_no_response example_hmac example_eks
           (fun _ _ _ => EmptyString) example_db other_db
           (request "GET" path_accounts no_token no_body) example_env).
  - split; [|split; reflexivity].
    constructor; [reflexivity|constructor].
  - reflexivity.
Defined.


(** * Where the statements of the specification fail *)

(** C2: DELETE /accounts/2, where no account has id 2, with the valid token
    of another account: the response is 403, not 404. *)
Lemma delete_missing_id_is_forbidden :
  no_account_with_id 2 example_db
  /\ serve (router example_eks example_hmac) example_db
       (request "DELETE" (path_accounts_id "2") anna_token no_body)
       example_env
     = (Response (forbidden "permission denied"), example_db)
  /\ status (forbidden "permission denied") <> StatusNotFound.
Proof.
  split; [exact example_db_no_account_2|].
  split; [vm_compute; reflexivity|].
  vm_compute. discriminate.
Qed.

(** C3: two requests the middleware refuses, one for a malformed token and
    one for an id of no account, get different responses. *)
Lemma auth_failures_differ :
  has_cause example_hmac MalformedToken example_db
    (request "GET" (path_accounts_id "2") no_token no_body) example_env
  /\ has_cause example_hmac AccountNotFound example_db
       (request "GET" (path_accounts_id "2") anna_token no_body) example_env
  /\ fst (serve (router example_eks example_hmac) example_db
            (request "GET" (path_accounts_id "2") no_token no_body)
            example_env)
     <> fst (serve (router example_eks example_hmac) example_db
               (request "GET" (path_accounts_id "2") anna_token no_body)
               example_env).
Proof.
  split; [|split].
  - simpl. exists EmptyString. reflexivity.
  - simpl. eexists. exists 2.
    split; [vm_compute; reflexivity|].
    split; [reflexivity|]. split; [reflexivity|].
    exact example_db_no_account_2.
  - vm_compute. intros H. discriminate.
Qed.

(** C4: GET /accounts/2, where no account has id 2: the response of the
    route is 403, and that of the handler behind the middleware is 400;
    neither is 404. *)
Lemma get_missing_id_is_not_404 :
  no_account_with_id 2 example_db
  /\ serve (router example_eks example_hmac) example_db
       (request "GET" (path_accounts_id "2") anna_token no_body) example_env
     = (Response (forbidden "permission denied"), example_db)
  /\ serve (makeHandleFunc handleAccountById) example_db
       (request "GET" (path_accounts_id "2") anna_token no_body) example_env
     = (Response (reply StatusBadRequest
                    (json_ApiError "account 2 not found")), example_db)
  /\ StatusForbidden <> StatusNotFound
  /\ StatusBadRequest <> StatusNotFound.
Proof.
  split; [exact example_db_no_account_2|].
  split; [vm_compute; reflexivity|].
  split; [vm_compute; reflexivity|].
  split; vm_compute; discriminate.
Qed.

(** C7: an account built with a password of 72 bytes accepts the password
    of 73 bytes that starts with it. *)
Lemma longer_password_is_accepted :
  exists acc,
    NewAccount example_eks example_env "Anna" "Adler" password72
    = (Some acc, None)
    /\ password73 <> password72
    /\ ValidatePassword example_eks acc password73 = true.
Proof.
  eexists. split; [vm_compute; reflexivity|].
  split.
  - intros H. vm_compute in H. discriminate.
  - vm_compute. reflexivity.
Qed.

(** * Further properties of the server *)

Section More.

Variable eksBlowfish : string -> Z -> string -> string.
Variable HMAC : string -> string -> string * MapClaims -> string.

Ltac write_json :=
  match goal with
  | |- context [WriteJSON ?c ?v ?wd] =>
      let e := fresh "e" in
      let w := fresh "w" in
      let H := fresh "H" in
      destruct (WriteJSON_store c v wd) as [e [w H]]; rewrite H; simpl
  end.

(** ** Lookups under the primary key *)

Lemma GetAccountByID_row (db : sqlDB) (a : Account) :
  wf db -> conn_err db = None -> int4_ok (ID a) = true ->
  In a (accounts db) ->
  GetAccountByID (ID a) db = Returns (Some a, None) db.
Proof.
  intros [_ [_ Hkey]] Hc Hi Hin. unfold GetAccountByID, Query. go.
  rewrite Hc. simpl. rewrite Hi.
  destruct (where_some (has_id (ID a)) (accounts db) a Hin) as
    [x [rest [Hf [Hx Hidx]]]].
  { unfold has_id. apply Z.eqb_refl. }
  rewrite Hf. simpl. unfold has_id in Hidx. apply Z.eqb_eq in Hidx.
  rewrite (row_of_id (accounts db) x a Hkey Hx Hin Hidx). reflexivity.
Qed.



(** ** POST /login *)


(** ** The token of a login on the protected route *)

Lemma createJWT_validates (env0 env : Env) (a : Account) :
  now env0 + 60 <> 0 ->
  JWT_SECRET env = JWT_SECRET env0 ->
  now env < now env0 + 60 ->
  exists token,
    validateJWT HMAC env (fst (createJWT HMAC env0 a)) = (Some token, None)
    /\ Valid token = true
    /\ claim "accountNumber" (Claims token) = Some (CStr (Number a)).
Proof.
  intros Hexp Hs Hlt. unfold createJWT, validateJWT, claims_Valid. simpl.
  unfold VerifyExpiresAt. simpl.
  destruct (now env0 + 60) as [|p|p] eqn:E; [contradiction| |];
    rewrite Hs;
    (replace (now env <? _) with true by (symmetry; apply Z.ltb_lt; lia));
    simpl; rewrite String.eqb_refl; simpl;
    eexists; (split; [reflexivity|]); split; reflexivity.
Qed.

Lemma createJWT_expires (env0 env : Env) (a : Account) :
  now env0 + 60 <> 0 ->
  now env0 + 60 <= now env ->
  exists token e,
    validateJWT HMAC env (fst (createJWT HMAC env0 a)) = (token, Some e).
Proof.
  intros Hexp Hge. unfold createJWT, validateJWT, claims_Valid. simpl.
  unfold VerifyExpiresAt. simpl.
  destruct (now env0 + 60) as [|p|p] eqn:E; [contradiction| |];
    (replace (now env <? _) with false by (symmetry; apply Z.ltb_ge; lia));
    simpl; eexists; eexists; reflexivity.
Qed.

(** X2: the token of a login opens the route of the account it was issued
    for.  On a well-formed table with a working connection, GET
    /accounts/{id} with the id of an account and the token createJWT made for
    that account, presented under the same secret before the token expires,
    is answered 200 with the account, and the store is unchanged. *)
Theorem token_opens_own_account :
  forall (db : sqlDB) (a : Account) (r : Request) (env0 env : Env)
         (idStr : string),
    wf db ->
    conn_err db = None ->
    In a (accounts db) ->
    int4_ok (ID a) = true ->
    URL r = path_accounts_id idStr ->
    Atoi idStr = Some (ID a) ->
    Method r = "GET" ->
    x_jwt_token r = fst (createJWT HMAC env0 a) ->
    JWT_SECRET env = JWT_SECRET env0 ->
    now env0 + 60 <> 0 ->
    now env < now env0 + 60 ->
    serve (router eksBlowfish HMAC) db r env
    = (Response (reply StatusOK (json_Account a)), db).
Proof.
  intros db a r env0 env idStr Hwf Hc Hin Hi Hurl Hid Hm Htok Hs Hexp Hlt.
  assert (Atoi (Vars_id r) = Some (ID a)) as Hid'
      by (unfold Vars_id; rewrite Hurl; exact Hid).
  pose proof (GetAccountByID_row db a Hwf Hc Hi Hin) as Hg.
  destruct (createJWT_validates env0 env a Hexp Hs Hlt) as
    [token [Hv [Hvalid Hclaim]]].
  assert (permitted HMAC db r env = Some a) as Hp.
  { unfold permitted. rewrite Htok, Hv, Hid', Hg, Hclaim.
    rewrite String.eqb_refl. reflexivity. }
  rewrite (router_protected eksBlowfish HMAC _ _ _ _ Hurl (or_introl Hm)).
  rewrite (withJWTAuth_permitted HMAC _ _ _ _ _ Hp).
  unfold serve, makeHandleFunc, handleAccountById, getID.
  rewrite Hid', Hm. go. rewrite Hg. reflexivity.
Qed.

(** X3: the token of one account does not open the route of another, and
    opens none once it has expired.  With the token createJWT made for an
    account a, GET or DELETE on /accounts/{id} for the id of an account with
    another number is answered 403 "permission denied"; at or after the
    expiry any request to the route is answered 403 "invalid token".  The
    store is unchanged in both cases. *)
Theorem token_opens_no_other_account :
  forall (db : sqlDB) (a b : Account) (r : Request) (env0 env : Env)
         (idStr : string),
    URL r = path_accounts_id idStr ->
    Method r = "GET" \/ Method r = "DELETE" ->
    x_jwt_token r = fst (createJWT HMAC env0 a) ->
    JWT_SECRET env = JWT_SECRET env0 ->
    now env0 + 60 <> 0 ->
    (now env < now env0 + 60 ->
     wf db -> conn_err db = None -> In b (accounts db) ->
     int4_ok (ID b) = true -> Atoi idStr = Some (ID b) ->
     Number b <> Number a ->
     serve (router eksBlowfish HMAC) db r env
     = (Response (forbidden "permission denied"), db))
    /\ (now env0 + 60 <= now env ->
        serve (router eksBlowfish HMAC) db r env
        = (Response (forbidden "invalid token"), db)).
Proof.
  intros db a b r env0 env idStr Hurl Hm Htok Hs Hexp.
  rewrite (router_protected eksBlowfish HMAC _ _ _ _ Hurl Hm).
  split.
  - intros Hlt Hwf Hc Hin Hi Hid Hne.
    assert (Atoi (Vars_id r) = Some (ID b)) as Hid'
        by (unfold Vars_id; rewrite Hurl; exact Hid).
    pose proof (GetAccountByID_row db b Hwf Hc Hi Hin) as Hg.
    destruct (createJWT_validates env0 env a Hexp Hs Hlt) as
      [token [Hv [Hvalid Hclaim]]].
    unfold serve, withJWTAuth, getID. rewrite Htok, Hv, Hvalid, Hid'. go.
    rewrite Hg, Hclaim.
    destruct (String.eqb_spec (Number b) (Number a)) as [E|E];
      [contradiction|reflexivity].
  - intros Hge.
    destruct (createJWT_expires env0 env a Hexp Hge) as [token [e Hv]].
    unfold serve, withJWTAuth. rewrite Htok, Hv. reflexivity.
Qed.

(** X4: a token whose header names a signing method that is not HS256,
    HS384 or HS512 (none, RS256, ...) is refused whatever its claims and its
    signature: the middleware answers 403 "invalid token" and calls no
    handler. *)
Theorem other_signing_method_is_refused :
  forall (h : HandlerFunc) (db : sqlDB) (r : Request) (env : Env)
         (alg : string) (claims : MapClaims) (sig : string),
    x_jwt_token r = Compact alg claims sig ->
    alg <> "HS256" -> alg <> "HS384" -> alg <> "HS512" ->
    serve (withJWTAuth HMAC h) db r env
    = (Response (forbidden "invalid token"), db).
Proof.
  intros h db r env alg claims sig Htok H1 H2 H3.
  unfold serve, withJWTAuth, validateJWT, SigningMethodHMAC. rewrite Htok.
  apply String.eqb_neq in H1, H2, H3. rewrite H1, H2, H3. reflexivity.
Qed.

(** X5: the middleware either hands the request to the handler as it came
    or answers by itself.  For every handler: when the token is valid and
    the account of the id in the path has the number the token claims, the
    outcome is that of the handler alone; in every other case it is 403
    with "invalid token" or "permission denied" and the store is
    unchanged. *)
Theorem middleware_passes_or_refuses :
  forall (h : HandlerFunc) (db : sqlDB) (r : Request) (env : Env),
    (forall a, permitted HMAC db r env = Some a ->
               serve (withJWTAuth HMAC h) db r env = serve h db r env)
    /\ (permitted HMAC db r env = None ->
        exists msg,
          serve (withJWTAuth HMAC h) db r env
          = (Response (forbidden msg), db)
          /\ (msg = "invalid token" \/ msg = "permission denied")).
Proof.
  intros h db r env. split.
  - intros a Hp. apply (withJWTAuth_permitted HMAC h db r env a Hp).
  - intros Hp. apply (withJWTAuth_refused HMAC h db r env Hp).
Qed.

(** ** POST /accounts *)









(** X8: POST /accounts with a password of more than 72 bytes is answered
    400 with the error of bcrypt, and nothing is stored. *)
Theorem create_rejects_long_password :
  forall (db : sqlDB) (r : Request) (env : Env) (req : CreateAccountRequest),
    URL r = path_accounts ->
    Method r = "POST" ->
    as_CreateAccountRequest (Body r) = inr req ->
    72 < Z.of_nat (String.length (car_Password req)) ->
    serve (router eksBlowfish HMAC) db r env
    = (Response (reply StatusBadRequest (json_ApiError ErrPasswordTooLong)),
       db).
Proof.
  intros db r env req Hurl Hm Hbody Hl.
  unfold serve, router, allows, makeHandleFunc, handleAccount,
    handleCreateAccount, NewAccount, GenerateFromPassword.
  rewrite Hurl, Hm, Hbody.
  replace (72 <? Z.of_nat (String.length (car_Password req))) with true
    by (symmetry; apply Z.ltb_lt; exact Hl).
  reflexivity.
Qed.

(** ** Requests that read *)

Lemma handleGetAccounts_store (r : Request) (env : Env) (wd : World) :
  store (final (handleGetAccounts r env wd)) = store wd.
Proof.
  unfold handleGetAccounts. go.
  pose proof (GetAccounts_store (store wd)) as Hs.
  destruct (GetAccounts (store wd)) as [[a [e|]] db'|msg db'];
    simpl in *; subst db'; try reflexivity.
  write_json. reflexivity.
Qed.

Lemma get_by_id_store (r : Request) (env : Env) (wd : World) :
  Method r = "GET" ->
  store (final (handleAccountById r env wd)) = store wd.
Proof.
  intros Hm. unfold handleAccountById.
  destruct (getID r) as [id [e|]]; simpl; [reflexivity|].
  rewrite Hm. go.
  pose proof (GetAccountByID_store id (store wd)) as Hs.
  destruct (GetAccountByID id (store wd)) as [[a [e|]] db'|msg db'];
    simpl in *; subst db'; try reflexivity.
  write_json. reflexivity.
Qed.

Lemma withJWTAuth_keeps (h : HandlerFunc) (r : Request) (env : Env) :
  (forall wd, store (final (h r env wd)) = store wd) ->
  forall wd, store (final (withJWTAuth HMAC h r env wd)) = store wd.
Proof.
  intros Hh wd. unfold withJWTAuth, invalidToken, permissionDenied.
  destruct (validateJWT HMAC env (x_jwt_token r)) as [token [e|]].
  { go. write_json. reflexivity. }
  destruct token as [token|]; [|reflexivity].
  destruct (Valid token); simpl; [|go; write_json; reflexivity].
  destruct (getID r) as [id [e|]]; [go; write_json; reflexivity|].
  go. pose proof (GetAccountByID_store id (store wd)) as Hs.
  destruct (GetAccountByID id (store wd)) as [[a [e|]] db'|msg db'];
    simpl in *; subst db'; try reflexivity.
  { write_json. reflexivity. }
  destruct a as [a|]; [|reflexivity].
  destruct (claim "accountNumber" (Claims token)) as [[z|n|]|];
    try (write_json; reflexivity).
  destruct (String.eqb (Number a) n); [|write_json; reflexivity].
  apply (Hh {| resp := resp wd; store := store wd |}).
Qed.

(** X9: a login and every GET leave the store as it was, whatever the
    request, the token and the state of the connection are. *)
Theorem reading_requests_leave_store :
  forall (db : sqlDB) (r : Request) (env : Env),
    URL r = path_login \/ Method r = "GET" ->
    snd (serve (router eksBlowfish HMAC) db r env) = db.
Proof.
  intros db r env Hread. rewrite serve_store. unfold router, allows.
  destruct (URL r) eqn:Hurl.
  - destruct (existsb _ _); [|reflexivity].
    rewrite makeHandleFunc_store, handleLogin_store. reflexivity.
  - destruct Hread as [H|Hm]; [discriminate|]. rewrite Hm. simpl.
    rewrite makeHandleFunc_store. unfold handleAccount. rewrite Hm. simpl.
    rewrite handleGetAccounts_store. reflexivity.
  - destruct Hread as [H|Hm]; [discriminate|]. rewrite Hm. simpl.
    rewrite withJWTAuth_keeps; [reflexivity|].
    intros wd. rewrite makeHandleFunc_store. apply get_by_id_store.
    exact Hm.
  - destruct Hread as [H|Hm]; [discriminate|]. rewrite Hm. reflexivity.
  - reflexivity.
Qed.

(** ** Panics *)








(** ** The id of the path *)

(** X11: an id in the path that is not a decimal number of an int.  For
    GET and DELETE the route answers 403 from the middleware ("permission
    denied" when the token is valid), and the handler behind it answers 400
    with "invalid id given " and the id; the store is unchanged. *)
Theorem id_that_is_no_number :
  forall (db : sqlDB) (r : Request) (env : Env) (idStr : string),
    URL r = path_accounts_id idStr ->
    Atoi idStr = None ->
    (Method r = "GET" \/ Method r = "DELETE" ->
     exists msg,
       serve (router eksBlowfish HMAC) db r env
       = (Response (forbidden msg), db)
       /\ (msg = "invalid token" \/ msg = "permission denied")
       /\ (forall token,
              validateJWT HMAC env (x_jwt_token r) = (Some token, None) ->
              msg = "permission denied"))
    /\ serve (makeHandleFunc handleAccountById) db r env
       = (Response (reply StatusBadRequest
                      (json_ApiError ("invalid id given " ++ idStr))), db).
Proof.
  intros db r env idStr Hurl Hid.
  assert (Atoi (Vars_id r) = None) as Hid'
      by (unfold Vars_id; rewrite Hurl; exact Hid).
  assert (Vars_id r = idStr) as Hvars
      by (unfold Vars_id; rewrite Hurl; reflexivity).
  split.
  - intros Hm. rewrite (router_protected eksBlowfish HMAC _ _ _ _ Hurl Hm).
    unfold serve, withJWTAuth, getID. rewrite Hid'.
    destruct (validateJWT_cases HMAC env (x_jwt_token r)) as
      [[token [e Hv]]|[token [Hv Hvalid]]]; rewrite Hv.
    + exists "invalid token". split; [reflexivity|]. split; [auto|].
      intros token' H. discriminate.
    + rewrite Hvalid. exists "permission denied".
      split; [reflexivity|]. split; [auto|]. intros; reflexivity.
  - unfold serve, makeHandleFunc, handleAccountById, getID.
    rewrite Hid', Hvars. reflexivity.
Qed.

(** ** The primary key *)

(** X12: the server keeps the primary key.  CreateAccount inserts no id of
    its own, so from a new database, and from any well-formed table, every
    table a run of requests reaches is well formed: the ids are at least 1,
    below the next value of the sequence, and no two rows share one. *)
Theorem primary_key_is_kept :
  forall (events : list Event),
    wf (run eksBlowfish HMAC events Init)
    /\ forall db, wf db -> wf (run eksBlowfish HMAC events db).
Proof.
  intros events. split.
  - apply (reachable_wf eksBlowfish HMAC).
  - intros db Hwf. apply (run_wf eksBlowfish HMAC). exact Hwf.
Qed.

(** ** Delete, then look up *)

Lemma deleted_has_no_id (id : Z) (db : sqlDB) :
  no_account_with_id id (deleted id db).
Proof.
  intros x Hx. unfold deleted in Hx. simpl in Hx. apply filter_In in Hx.
  destruct Hx as [_ Hx]. unfold has_id in Hx. apply negb_true_iff in Hx.
  apply Z.eqb_neq. exact Hx.
Qed.

Lemma deleted_wf (id : Z) (db : sqlDB) : wf db -> wf (deleted id db).
Proof.
  intros [Hseq [Hids Hkey]]. unfold deleted. split; [exact Hseq|]. split.
  - simpl. apply Forall_forall. intros a Ha. apply filter_In in Ha.
    rewrite Forall_forall in Hids. apply Hids. apply Ha.
  - simpl. apply where_keeps_key. exact Hkey.
Qed.

(** X13: after DeleteAccount has removed the row of an id, on a
    well-formed table with a working connection: GetAccountByID of that id
    returns the error "account <id> not found", a second DeleteAccount of it
    returns identifier 0 and no error and changes nothing, and every other
    row is found under its id as before. *)
Theorem delete_then_lookup :
  forall (db : sqlDB) (a : Account),
    wf db ->
    conn_err db = None ->
    int4_ok (ID a) = true ->
    In a (accounts db) ->
    DeleteAccount (ID a) db = Returns (ID a, None) (deleted (ID a) db)
    /\ GetAccountByID (ID a) (deleted (ID a) db)
       = Returns (None, Some ("account " ++ itoa (ID a) ++ " not found"))
           (deleted (ID a) db)
    /\ DeleteAccount (ID a) (deleted (ID a) db)
       = Returns (0, None) (deleted (ID a) db)
    /\ (forall b : Account,
          In b (accounts db) -> ID b <> ID a -> int4_ok (ID b) = true ->
          GetAccountByID (ID b) (deleted (ID a) db)
          = Returns (Some b, None) (deleted (ID a) db)).
Proof.
  intros db a Hwf Hc Hi Hin.
  split; [apply (DeleteAccount_existing (ID a) db a Hc Hi Hin eq_refl)|].
  split.
  - destruct (GetAccountByID_missing (ID a) (deleted (ID a) db)
                (deleted_has_no_id (ID a) db)) as [e [Hg He]].
    rewrite Hg. rewrite He; [reflexivity|].
    unfold query_error. simpl. rewrite Hc, Hi. reflexivity.
  - split.
    + apply DeleteAccount_missing; [exact Hc|exact Hi|].
      apply deleted_has_no_id.
    + intros b Hb Hne Hib.
      apply GetAccountByID_row; [apply deleted_wf; exact Hwf|exact Hc|
                                 exact Hib|].
      unfold deleted. simpl. apply filter_In. split; [exact Hb|].
      unfold has_id. apply negb_true_iff. apply Z.eqb_neq. exact Hne.
Qed.

(** ** Transfers that undo each other *)

Lemma float64_integer_opp (f : float64) :
  float64_integer (SFopp f) = option_map Z.opp (float64_integer f).
Proof.
  destruct f as [s|s| |s m e]; simpl; try reflexivity.
  destruct (0 <=? e).
  - destruct s; simpl; f_equal; lia.
  - destruct (Z.pos m mod 2 ^ (- e) =? 0); [|reflexivity].
    destruct s; simpl; f_equal; lia.
Qed.

Lemma credit_back (k : Z) (number : string) (rows : list Account) :
  map (credit (- k) number) (map (credit k number) rows) = rows.
Proof.
  induction rows as [|a rows IH]; simpl; [reflexivity|].
  rewrite IH. f_equal. unfold credit.
  destruct (has_number number a) eqn:E.
  - assert (has_number number (add_balance k a) = true) as E' by exact E.
    rewrite E'. destruct a. unfold add_balance. simpl. f_equal. lia.
  - rewrite E. reflexivity.
Qed.

Lemma filter_number_credit (k : Z) (number : string) (rows : list Account) :
  map ID (filter (has_number number) (map (credit k number) rows))
  = map ID (filter (has_number number) rows).
Proof.
  induction rows as [|a rows IH]; simpl; [reflexivity|].
  assert (has_number number (credit k number a) = has_number number a) as E.
  { unfold credit. destruct (has_number number a) eqn:E; [exact E|exact E]. }
  rewrite E. destruct (has_number number a); simpl; [|exact IH].
  rewrite IH. f_equal.
  destruct (credit_same_but_balance k number a) as [H _]. exact H.
Qed.

(** X14: a transfer of the opposite amount undoes a transfer.  When
    Transfer has credited an amount to the rows of a number and the update
    with the negated amount is executed on the table that results, that
    second Transfer returns the same id and restores the table the first one
    started from. *)
Theorem transfer_is_undone_by_its_opposite :
  forall (db db1 : sqlDB) (number : string) (amount : float64) (id : Z),
    Transfer number amount db = Returns (id, None) db1 ->
    query_error (update_balance_returning_id (SFopp amount) number) db1
    = None ->
    Transfer number (SFopp amount) db1 = Returns (id, None) db.
Proof.
  intros db db1 number amount id HT Hq.
  assert (conn_err db = None
          /\ exists k, int4_in amount = Some k
                       /\ db1 = credited k number db
                       /\ id = hd 0 (map ID (filter (has_number number)
                                               (accounts db))))
    as [Hc [k [Hk [Hdb1 Hid]]]].
  { revert HT. unfold Transfer, Query. go.
    destruct (conn_err db) eqn:Hc; simpl; [discriminate|].
    destruct (int4_in amount) as [k|]; simpl; [|discriminate].
    destruct (forallb _ _); simpl; [|discriminate].
    destruct (map ID (filter (has_number number) (accounts db)))
      as [|x rest]; simpl; intros H; injection H as Hx Hdb; subst id;
      (split; [reflexivity|]); exists k; (split; [reflexivity|]);
      (split; [|reflexivity]); symmetry; exact Hdb. }
  destruct (query_error_none _ _ Hq) as [Hc1 [rows [db2 Hr]]].
  assert (int4_in (SFopp amount) = Some (- k)) as Hk'.
  { simpl in Hr. revert Hr. unfold int4_in in *.
    rewrite float64_integer_opp.
    destruct (float64_integer amount) as [k0|]; simpl; [|discriminate].
    destruct (int4_ok k0); [|discriminate]. injection Hk as Hk. subst k0.
    destruct (int4_ok (- k)); [reflexivity|discriminate]. }
  unfold Transfer, Query. go. rewrite Hc1. simpl in *. rewrite Hk' in *.
  destruct (forallb _ _); [|discriminate]. simpl.
  subst db1. simpl. rewrite filter_number_credit.
  rewrite credit_back. unfold with_accounts. simpl.
  assert ({| accounts := accounts db; accounts_id_seq := accounts_id_seq db;
             conn_err := conn_err db |} = db) as Hdb
      by (destruct db; reflexivity).
  rewrite Hdb. subst id.
  destruct (map ID (filter (has_number number) (accounts db))); reflexivity.
Qed.

(** ** Decimal ids *)

Lemma parse_digits_printed (sign : Z) (d : uint) :
  d <> Nil ->
  int64_ok (sign * Z.of_uint d) = true ->
  parse_digits sign (NilEmpty.string_of_uint d) = Some (sign * Z.of_uint d).
Proof.
  intros Hd Hok. unfold parse_digits. rewrite NilEmpty.usu, Hok.
  destruct d; [contradiction|reflexivity..].
Qed.

Lemma Atoi_printed (d : uint) :
  d <> Nil ->
  Atoi (NilEmpty.string_of_uint d)
  = parse_digits 1 (NilEmpty.string_of_uint d).
Proof.
  intros Hd. destruct d; [contradiction|reflexivity..].
Qed.

Lemma Atoi_itoa (z : Z) : int64_ok z = true -> Atoi (itoa z) = Some z.
Proof.
  intros Hok. unfold itoa. destruct z as [|p|p].
  - reflexivity.
  - pose proof (Unsigned.to_uint_nonnil p) as Hd.
    pose proof (DecimalZ.of_to (Z.pos p)) as Hz. simpl in Hz.
    simpl. unfold NilZero.string_of_uint.
    destruct (Pos.to_uint p) eqn:E; [contradiction|..];
      rewrite <- E in *; rewrite (Atoi_printed _ Hd);
      rewrite (parse_digits_printed 1 _ Hd);
      rewrite ?Z.mul_1_l, ?Hz; try reflexivity; exact Hok.
  - pose proof (Unsigned.to_uint_nonnil p) as Hd.
    pose proof (DecimalZ.of_to (Z.neg p)) as Hz. simpl in Hz.
    simpl. unfold NilZero.string_of_uint.
    change (Atoi (String "-" ?s)) with (parse_digits (-1) s).
    assert (-1 * Z.of_uint (Pos.to_uint p) = Z.neg p) as Hm by lia.
    destruct (Pos.to_uint p) eqn:E; [contradiction|..];
      rewrite <- E in *; rewrite (parse_digits_printed (-1) _ Hd);
      rewrite ?Hm; try reflexivity; exact Hok.
Qed.

(** X15: getID reads back what %d printed.  For every id within the range
    of an int, positive, zero or negative, getID on the path
    /accounts/<the id in decimal> returns that id and no error. *)
Theorem getID_reads_printed_id :
  forall (r : Request) (z : Z),
    int64_ok z = true ->
    URL r = path_accounts_id (itoa z) ->
    getID r = (z, None).
Proof.
  intros r z Hok Hurl. unfold getID, Vars_id. rewrite Hurl.
  rewrite (Atoi_itoa z Hok). reflexivity.
Qed.

(** ** GET /accounts *)

(** X16: GET /accounts with a working connection is answered 200 with the
    array of all rows in the order of the table, the empty array for an
    empty table; when the connection is broken it is answered 400 with the
    error of the query.  The store is unchanged. *)
Theorem listing_answers :
  forall (db : sqlDB) (r : Request) (env : Env),
    URL r = path_accounts ->
    Method r = "GET" ->
    (conn_err db = None ->
     serve (router eksBlowfish HMAC) db r env
     = (Response (reply StatusOK (JArray (map json_Account (accounts db)))),
        db))
    /\ (forall e, conn_err db = Some e ->
                  serve (router eksBlowfish HMAC) db r env
                  = (Response (reply StatusBadRequest (json_ApiError e)), db)).
Proof.
  intros db r env Hurl Hm. split.
  - intros Hc.
    unfold serve, router, allows, makeHandleFunc, handleAccount,
      handleGetAccounts, GetAccounts, Query.
    rewrite Hurl, Hm. go. rewrite Hc. reflexivity.
  - intros e Hc.
    unfold serve, router, allows, makeHandleFunc, handleAccount,
      handleGetAccounts, GetAccounts, Query.
    rewrite Hurl, Hm. go. rewrite Hc. reflexivity.
Qed.

(** ** The shape of the responses *)











(** ** What each route does to the table *)

Lemma CreateAccount_effect (acc : Account) (db : sqlDB) :
  final (CreateAccount acc db) = db
  \/ final (CreateAccount acc db) = inserted acc db.
Proof.
  unfold CreateAccount. go.
  destruct (Query_cases (insert_account (FirstName acc) (LastName acc)
                           (Number acc) (EncryptedPassword acc)
                           (Balance acc) (CreatedAt acc)) db)
    as [[e Hq]|[rows [db' [Hr Hq]]]]; rewrite Hq; simpl.
  - left; reflexivity.
  - right. simpl in Hr.
    destruct (int4_ok (accounts_id_seq db) && int4_ok (Balance acc));
      [|discriminate].
    injection Hr as _ Hr. subst db'. reflexivity.
Qed.

Lemma DeleteAccount_effect (id : Z) (db : sqlDB) :
  final (DeleteAccount id db) = db
  \/ final (DeleteAccount id db) = deleted id db.
Proof.
  unfold DeleteAccount. go.
  destruct (Query_cases (delete_returning_id id) db)
    as [[e Hq]|[rows [db' [Hr Hq]]]]; rewrite Hq; simpl.
  - left; reflexivity.
  - right. simpl in Hr. destruct (int4_ok id); [|discriminate].
    injection Hr as _ Hr. subst db'. destruct rows; reflexivity.
Qed.

Lemma handleAccount_effect (r : Request) (env : Env) (wd : World) :
  store (final (handleAccount eksBlowfish r env wd)) = store wd
  \/ exists acc,
       Number acc = uuid env /\ Balance acc = 0
       /\ store (final (handleAccount eksBlowfish r env wd))
          = inserted acc (store wd).
Proof.
  unfold handleAccount.
  destruct (String.eqb (Method r) "GET").
  - left. apply handleGetAccounts_store.
  - destruct (String.eqb (Method r) "POST"); [|left; reflexivity].
    unfold handleCreateAccount.
    destruct (as_CreateAccountRequest (Body r)) as [e|req];
      [left; reflexivity|].
    destruct (NewAccount eksBlowfish env (car_FirstName req)
                (car_LastName req) (car_Password req))
      as [[acc|] [e|]] eqn:Hnew; simpl; try (left; reflexivity).
    destruct (NewAccount_hash eksBlowfish _ _ _ _ _ Hnew)
      as [_ [Hn [Hb _]]].
    go. pose proof (CreateAccount_effect acc (store wd)) as Hs.
    assert (forall db',
               final (CreateAccount acc (store wd)) = db' ->
               db' = store wd
               \/ exists acc0,
                    Number acc0 = uuid env /\ Balance acc0 = 0
                    /\ db' = inserted acc0 (store wd)) as Hdb.
    { intros db' E. rewrite E in Hs. destruct Hs as [Hs|Hs];
        [left; exact Hs|right; exists acc; auto]. }
    destruct (CreateAccount acc (store wd)) as [[e|] db'|msg db'];
      simpl in *; try (apply Hdb; reflexivity).
    write_json. apply Hdb. reflexivity.
Qed.

Lemma handleAccountById_effect (r : Request) (env : Env) (wd : World) :
  store (final (handleAccountById r env wd)) = store wd
  \/ exists id,
       getID r = (id, None) /\ Method r = "DELETE"
       /\ store (final (handleAccountById r env wd))
          = deleted id (store wd).
Proof.
  unfold handleAccountById.
  destruct (getID r) as [id [e|]] eqn:Hid; simpl; [left; reflexivity|].
  destruct (String.eqb (Method r) "GET") eqn:Hget.
  - go. pose proof (GetAccountByID_store id (store wd)) as Hs.
    destruct (GetAccountByID id (store wd)) as [[a [e|]] db'|msg db'];
      simpl in *; subst db'; try (left; reflexivity).
    write_json. left; reflexivity.
  - destruct (String.eqb_spec (Method r) "DELETE") as [Hm|Hm];
      [|left; reflexivity].
    go. pose proof (DeleteAccount_effect id (store wd)) as Hs.
    assert (forall db',
               final (DeleteAccount id (store wd)) = db' ->
               db' = store wd
               \/ exists id0, (id, @None string) = (id0, None)
                              /\ Method r = "DELETE"
                              /\ db' = deleted id0 (store wd)) as Hdb.
    { intros db' E. rewrite E in Hs. destruct Hs as [Hs|Hs];
        [left; exact Hs|right; exists id; auto]. }
    destruct (DeleteAccount id (store wd)) as [[id' [e|]] db'|msg db'];
      simpl in *; try (apply Hdb; reflexivity).
    + write_json. apply Hdb. reflexivity.
    + destruct (id' =? 0); write_json; apply Hdb; reflexivity.
Qed.

Lemma withJWTAuth_effect (h : HandlerFunc) (r : Request) (env : Env)
  (P : sqlDB -> sqlDB -> Prop) :
  (forall db, P db db) ->
  (forall wd, P (store wd) (store (final (h r env wd)))) ->
  forall wd, P (store wd) (store (final (withJWTAuth HMAC h r env wd))).
Proof.
  intros Hrefl Hh wd. unfold withJWTAuth, invalidToken, permissionDenied.
  destruct (validateJWT HMAC env (x_jwt_token r)) as [token [e|]].
  { go. write_json. apply Hrefl. }
  destruct token as [token|]; [|apply Hrefl].
  destruct (Valid token); simpl; [|go; write_json; apply Hrefl].
  destruct (getID r) as [id [e|]]; [go; write_json; apply Hrefl|].
  go. pose proof (GetAccountByID_store id (store wd)) as Hs.
  destruct (GetAccountByID id (store wd)) as [[a [e|]] db'|msg db'];
    simpl in *; subst db'; try apply Hrefl.
  { write_json. apply Hrefl. }
  destruct a as [a|]; [|apply Hrefl].
  destruct (claim "accountNumber" (Claims token)) as [[z|n|]|];
    try (write_json; apply Hrefl).
  destruct (String.eqb (Number a) n); [|write_json; apply Hrefl].
  apply (Hh {| resp := resp wd; store := store wd |}).
Qed.

(** X18: what the routes other than /transfer can do to the table.  A
    request leaves the table as it was, or it is a POST /accounts and adds
    one row at the end, with the number drawn and the balance 0, or it is a
    DELETE /accounts/{id} and removes the rows of the id in its path.  So
    none of them changes a row that stays. *)
Theorem routes_and_the_table :
  forall (db : sqlDB) (r : Request) (env : Env),
    URL r <> path_transfer ->
    snd (serve (router eksBlowfish HMAC) db r env) = db
    \/ (exists acc,
           URL r = path_accounts /\ Method r = "POST"
           /\ Number acc = uuid env /\ Balance acc = 0
           /\ snd (serve (router eksBlowfish HMAC) db r env)
              = inserted acc db)
    \/ (exists idStr id,
           URL r = path_accounts_id idStr /\ Method r = "DELETE"
           /\ Atoi idStr = Some id
           /\ snd (serve (router eksBlowfish HMAC) db r env)
              = deleted id db).
Proof.
  intros db r env Hnt. rewrite serve_store. unfold router, allows.
  destruct (URL r) as [| |idStr| |raw] eqn:Hurl.
  - left. destruct (existsb _ _); [|reflexivity].
    rewrite makeHandleFunc_store, handleLogin_store. reflexivity.
  - destruct (existsb _ _); [|left; reflexivity].
    rewrite makeHandleFunc_store.
    destruct (String.eqb_spec (Method r) "POST") as [Hm|Hm].
    + destruct (handleAccount_effect r env
                  {| resp := newResponse; store := db |})
        as [H|[acc [Hn [Hb H]]]]; [left; exact H|].
      right. left. exists acc. auto.
    + left. unfold handleAccount.
      destruct (String.eqb (Method r) "GET");
        [apply handleGetAccounts_store|].
      destruct (String.eqb_spec (Method r) "POST"); [contradiction|].
      reflexivity.
  - destruct (existsb _ _); [|left; reflexivity].
    apply (withJWTAuth_effect (makeHandleFunc handleAccountById) r env
             (fun d d' =>
                d' = d
                \/ (exists acc : Account,
                       path_accounts_id idStr = path_accounts
                       /\ Method r = "POST"
                       /\ Number acc = uuid env /\ Balance acc = 0
                       /\ d' = inserted acc d)
                \/ (exists idStr0 id,
                       path_accounts_id idStr = path_accounts_id idStr0
                       /\ Method r = "DELETE" /\ Atoi idStr0 = Some id
                       /\ d' = deleted id d))).
    + intros d. left. reflexivity.
    + intros wd. rewrite makeHandleFunc_store.
      destruct (handleAccountById_effect r env wd) as [H|[id [Hid [Hm H]]]];
        [left; exact H|].
      right. right. exists idStr, id. split; [reflexivity|].
      split; [exact Hm|]. split; [|exact H].
      unfold getID, Vars_id in Hid. rewrite Hurl in Hid.
      destruct (Atoi idStr) as [z|]; [|discriminate].
      injection Hid as Hid. rewrite Hid. reflexivity.
  - contradiction.
  - left. reflexivity.
Qed.

End More.

(** * The further properties at the example inputs *)

Lemma two_db_wf : wf two_db.
Proof.
  split; [simpl; lia|]. split.
  - constructor; [simpl; lia|]. constructor; [simpl; lia|constructor].
  - constructor.
    + intros [H|[]]. discriminate.
    + constructor; [intros []|constructor].
Defined.


Lemma token_opens_own_account_witness :
  serve (router example_eks example_hmac) example_db
    (request "GET" (path_accounts_id "1") anna_token no_body) later_env
  = (Response (reply StatusOK (json_Account anna)), example_db).
Proof.
  apply (token_opens_own_account example_eks example_hmac example_db anna
           (request "GET" (path_accounts_id "1") anna_token no_body)
           example_env later_env "1").
  - exact example_db_wf.
  - reflexivity.
  - left. reflexivity.
  - reflexivity.
  - reflexivity.
  - reflexivity.
  - reflexivity.
  - reflexivity.
  - reflexivity.
  - simpl. lia.
  - simpl. lia.
Defined.

Lemma token_opens_no_other_account_witness :
  serve (router example_eks example_hmac) two_db
    (request "DELETE" (path_accounts_id "2") anna_token no_body) later_env
  = (Response (forbidden "permission denied"), two_db).
Proof.
  refine (proj1 (token_opens_no_other_account example_eks example_hmac two_db
                   anna bob
                   (request "DELETE" (path_accounts_id "2") anna_token no_body)
                   example_env later_env "2" _ _ _ _ _) _ _ _ _ _ _ _).
  - reflexivity.
  - right. reflexivity.
  - reflexivity.
  - reflexivity.
  - simpl. lia.
  - simpl. lia.
  - exact two_db_wf.
  - reflexivity.
  - right. left. reflexivity.
  - reflexivity.
  - reflexivity.
  - intros H. vm_compute in H. discriminate.
Defined.

Lemma other_signing_method_is_refused_witness :
  serve (withJWTAuth example_hmac (makeHandleFunc handleAccountById))
    example_db
    (request "GET" (path_accounts_id "1")
       (Compact "none" [("accountNumber", CStr (Number anna))] "")
       no_body) example_env
  = (Response (forbidden "invalid token"), example_db).
Proof.
  apply (other_signing_method_is_refused example_hmac
           (makeHandleFunc handleAccountById) example_db
           (request "GET" (path_accounts_id "1")
              (Compact "none" [("accountNumber", CStr (Number anna))] "")
              no_body)
           example_env "none" [("accountNumber", CStr (Number anna))] "").
  - reflexivity.
  - discriminate.
  - discriminate.
  - discriminate.
Defined.

Lemma middleware_passes_or_refuses_witness :
  serve (withJWTAuth example_hmac (makeHandleFunc handleAccountById))
    example_db
    (request "GET" (path_accounts_id "1") anna_token no_body) later_env
  = serve (makeHandleFunc handleAccountById) example_db
      (request "GET" (path_accounts_id "1") anna_token no_body) later_env.
Proof.
  refine (proj1 (middleware_passes_or_refuses example_hmac
                   (makeHandleFunc handleAccountById) example_db
                   (request "GET" (path_accounts_id "1") anna_token no_body)
                   later_env) anna _).
  vm_compute. reflexivity.
Defined.



Lemma create_rejects_long_password_witness :
  serve (router example_eks example_hmac) example_db
    (request "POST" path_accounts no_token
       (create_body "Bob" "Baker" password73)) bob_env
  = (Response (reply StatusBadRequest (json_ApiError ErrPasswordTooLong)),
     example_db).
Proof.
  apply (create_rejects_long_password example_eks example_hmac example_db
           (request "POST" path_accounts no_token
              (create_body "Bob" "Baker" password73))
           bob_env
           {| car_FirstName := "Bob"; car_LastName := "Baker";
              car_Password := password73 |}).
  - reflexivity.
  - reflexivity.
  - reflexivity.
  - vm_compute. reflexivity.
Defined.

Lemma reading_requests_leave_store_witness :
  snd (serve (router example_eks example_hmac) example_db
         (request "GET" (path_accounts_id "1") anna_token no_body) later_env)
  = example_db.
Proof.
  apply (reading_requests_leave_store example_eks example_hmac example_db
           (request "GET" (path_accounts_id "1") anna_token no_body)
           later_env).
  right. reflexivity.
Defined.


Lemma id_that_is_no_number_witness :
  (Method (request "GET" (path_accounts_id "abc") anna_token no_body) = "GET"
   \/ Method (request "GET" (path_accounts_id "abc") anna_token no_body)
      = "DELETE" ->
   exists msg,
     serve (router example_eks example_hmac) example_db
       (request "GET" (path_accounts_id "abc") anna_token no_body) later_env
     = (Response (forbidden msg), example_db)
     /\ (msg = "invalid token" \/ msg = "permission denied")
     /\ (forall token,
            validateJWT example_hmac later_env
              (x_jwt_token
                 (request "GET" (path_accounts_id "abc") anna_token no_body))
            = (Some token, None) ->
            msg = "permission denied"))
  /\ serve (makeHandleFunc handleAccountById) example_db
       (request "GET" (path_accounts_id "abc") anna_token no_body) later_env
     = (Response (reply StatusBadRequest
                    (json_ApiError ("invalid id given " ++ "abc"))),
        example_db).
Proof.
  apply (id_that_is_no_number example_eks example_hmac example_db
           (request "GET" (path_accounts_id "abc") anna_token no_body)
           later_env "abc").
  - reflexivity.
  - reflexivity.
Defined.

Lemma primary_key_is_kept_witness :
  wf (run example_eks example_hmac [create_bob] example_db).
Proof.
  apply (proj2 (primary_key_is_kept example_eks example_hmac [create_bob])
           example_db).
  exact example_db_wf.
Defined.

Lemma delete_then_lookup_witness :
  DeleteAccount (ID anna) two_db = Returns (ID anna, None) (deleted (ID anna) two_db)
  /\ GetAccountByID (ID anna) (deleted (ID anna) two_db)
     = Returns (None, Some ("account " ++ itoa (ID anna) ++ " not found"))
         (deleted (ID anna) two_db)
  /\ DeleteAccount (ID anna) (deleted (ID anna) two_db)
     = Returns (0, None) (deleted (ID anna) two_db)
  /\ (forall b : Account,
        In b (accounts two_db) -> ID b <> ID anna -> int4_ok (ID b) = true ->
        GetAccountByID (ID b) (deleted (ID anna) two_db)
        = Returns (Some b, None) (deleted (ID anna) two_db)).
Proof.
  apply (delete_then_lookup two_db anna).
  - exact two_db_wf.
  - reflexivity.
  - reflexivity.
  - left. reflexivity.
Defined.

Lemma transfer_is_undone_by_its_opposite_witness :
  Transfer (Number anna) (SFopp fifty) (credited 50 (Number anna) example_db)
  = Returns (1, None) example_db.
Proof.
  apply (transfer_is_undone_by_its_opposite example_db
           (credited 50 (Number anna) example_db) (Number anna) fifty 1).
  - vm_compute. reflexivity.
  - vm_compute. reflexivity.
Defined.

Lemma getID_reads_printed_id_witness :
  getID (request "GET" (path_accounts_id (itoa 42)) no_token no_body)
  = (42, None).
Proof.
  apply (getID_reads_printed_id
           (request "GET" (path_accounts_id (itoa 42)) no_token no_body) 42).
  - reflexivity.
  - reflexivity.
Defined.

Lemma listing_answers_witness :
  (conn_err example_db = None ->
   serve (router example_eks example_hmac) example_db
     (request "GET" path_accounts no_token no_body) example_env
   = (Response (reply StatusOK
                  (JArray (map json_Account (accounts example_db)))),
      example_db))
  /\ (forall e, conn_err example_db = Some e ->
                serve (router example_eks example_hmac) example_db
                  (request "GET" path_accounts no_token no_body) example_env
                = (Response (reply StatusBadRequest (json_ApiError e)),
                   example_db)).
Proof.
  apply (listing_answers example_eks example_hmac example_db
           (request "GET" path_accounts no_token no_body) example_env).
  - reflexivity.
  - reflexivity.
Defined.


Lemma routes_and_the_table_witness :
  snd (serve (router example_eks example_hmac) example_db
         (ev_request create_bob) bob_env) = example_db
  \/ (exists acc,
         URL (ev_request create_bob) = path_accounts
         /\ Method (ev_request create_bob) = "POST"
         /\ Number acc = uuid bob_env /\ Balance acc = 0
         /\ snd (serve (router example_eks example_hmac) example_db
                   (ev_request create_bob) bob_env)
            = inserted acc example_db)
  \/ (exists idStr id,
         URL (ev_request create_bob) = path_accounts_id idStr
         /\ Method (ev_request create_bob) = "DELETE"
         /\ Atoi idStr = Some id
         /\ snd (serve (router example_eks example_hmac) example_db
                   (ev_request create_bob) bob_env)
            = deleted id example_db).
Proof.
  apply (routes_and_the_table example_eks example_hmac example_db
           (ev_request create_bob) bob_env).
  discriminate.
Defined.
